(** * IPL player statistics pipeline: a shallow embedding of [main.py]

    The pipeline of [main.py] is embedded function by function:
    [load_ipl_data], [clean_ipl_data], [analyze_ipl], [generate_charts]
    and [embed_charts].

    Modelling choices.
    - A pandas cell is a [Cell]: missing ([NA], which stands for NaN, None
      and pd.NA alike), a string, or a number.  Numbers are rationals
      ([Q]); floating-point rounding is outside the model.
    - A DataFrame is the list of its rows in positional order, over the
      fixed eight-column schema of the input file.  DataFrame objects
      live in a store of references where aliasing matters.
    - The file system is a finite map from paths to files; a file write
      is one step.
    - The pandas and openpyxl calls follow their documented behaviour
      ([nlargest] with [keep='first'] ranks in descending order and
      leaves ties in their original order).  What pandas makes of a text
      ([pd.to_numeric], [float], [read_excel], [read_csv]) and what the
      plotting back end draws are parameters of the development. *)

From Stdlib Require Import QArith Sorted.
From stdpp Require Import gmap strings list pretty.

Local Open Scope string_scope.
Local Open Scope list_scope.

(** ** Data model *)

Inductive Cell : Type :=
| NA
| Str (s : string)
| Num (q : Q).

(** The eight columns of the schema, with the header names of the file. *)
Inductive Column : Type :=
| Player | Role | Team | Matches | Runs | Bat_SR | Wickets | Econ.

Record Row : Type := mkRow {
  r_player : Cell;
  r_role : Cell;
  r_team : Cell;
  r_matches : Cell;
  r_runs : Cell;
  r_bat_sr : Cell;
  r_wickets : Cell;
  r_econ : Cell
}.

Abbreviation DataFrame := (list Row).

(** [row[col]] *)
Definition get (col : Column) (r : Row) : Cell :=
  match col with
  | Player => r_player r
  | Role => r_role r
  | Team => r_team r
  | Matches => r_matches r
  | Runs => r_runs r
  | Bat_SR => r_bat_sr r
  | Wickets => r_wickets r
  | Econ => r_econ r
  end.

(** [row[col] = v] *)
Definition set (col : Column) (v : Cell) (r : Row) : Row :=
  match col with
  | Player => mkRow v (r_role r) (r_team r) (r_matches r) (r_runs r) (r_bat_sr r) (r_wickets r) (r_econ r)
  | Role => mkRow (r_player r) v (r_team r) (r_matches r) (r_runs r) (r_bat_sr r) (r_wickets r) (r_econ r)
  | Team => mkRow (r_player r) (r_role r) v (r_matches r) (r_runs r) (r_bat_sr r) (r_wickets r) (r_econ r)
  | Matches => mkRow (r_player r) (r_role r) (r_team r) v (r_runs r) (r_bat_sr r) (r_wickets r) (r_econ r)
  | Runs => mkRow (r_player r) (r_role r) (r_team r) (r_matches r) v (r_bat_sr r) (r_wickets r) (r_econ r)
  | Bat_SR => mkRow (r_player r) (r_role r) (r_team r) (r_matches r) (r_runs r) v (r_wickets r) (r_econ r)
  | Wickets => mkRow (r_player r) (r_role r) (r_team r) (r_matches r) (r_runs r) (r_bat_sr r) v (r_econ r)
  | Econ => mkRow (r_player r) (r_role r) (r_team r) (r_matches r) (r_runs r) (r_bat_sr r) (r_wickets r) v
  end.

Definition all_columns : list Column :=
  [Player; Role; Team; Matches; Runs; Bat_SR; Wickets; Econ].

Definition is_na (c : Cell) : bool :=
  match c with NA => true | _ => false end.

Definition is_num (c : Cell) : bool :=
  match c with Num _ => true | _ => false end.

(** Equality of two cells as pandas compares them when it looks for
    duplicates: numbers by value, strings by content, and two missing
    values count as equal. *)
Definition cell_eqb (a b : Cell) : bool :=
  match a, b with
  | NA, NA => true
  | Str s, Str t => String.eqb s t
  | Num p, Num q => Qeq_bool p q
  | _, _ => false
  end.

(** ** Cleaner *)

(** [Series.fillna(v)] on one cell. *)
Definition fillna_cell (v : Cell) (c : Cell) : Cell :=
  match c with NA => v | _ => c end.

(** [df.fillna({col: v, ...})]: a new frame in which the missing cells
    of each listed column hold that column's value. *)
Definition fillna (value : list (Column * Cell)) (df : DataFrame) : DataFrame :=
  map (fun r =>
         fold_left (fun r' kv => set (fst kv) (fillna_cell (snd kv) (get (fst kv) r')) r')
                   value r) df.

(** The dictionary literal of [clean_ipl_data], in its insertion order. *)
Definition fill_values : list (Column * Cell) :=
  [ (Player, Str "Unknown"); (Role, Str "Unknown"); (Team, Str "Unknown");
    (Matches, Num 0); (Runs, Num 0); (Bat_SR, Num 0); (Wickets, Num 0);
    (Econ, Num 0) ].

(** [df[col] = f(df[col])] for an elementwise [f]. *)
Definition assign (col : Column) (f : Cell -> Cell) (df : DataFrame) : DataFrame :=
  map (fun r => set col (f (get col r)) r) df.

(** [df.duplicated(subset)] scans the rows in order and remembers the keys
    seen so far; [drop_duplicates] keeps the rows not flagged. *)
Definition key_of (subset : list Column) (r : Row) : list Cell :=
  map (fun c => get c r) subset.

Fixpoint key_eqb (k1 k2 : list Cell) : bool :=
  match k1, k2 with
  | [], [] => true
  | a :: k1', b :: k2' => cell_eqb a b && key_eqb k1' k2'
  | _, _ => false
  end.

Fixpoint drop_duplicates_from (subset : list Column) (seen : list (list Cell))
    (df : DataFrame) : DataFrame :=
  match df with
  | [] => []
  | r :: rest =>
      let k := key_of subset r in
      if existsb (key_eqb k) seen
      then drop_duplicates_from subset seen rest
      else r :: drop_duplicates_from subset (k :: seen) rest
  end.

Definition drop_duplicates (subset : list Column) (df : DataFrame) : DataFrame :=
  drop_duplicates_from subset [] df.

Section Cleaner.

(** How [pd.to_numeric] reads a string: [Some q] when the text is a
    number, [None] when it is not. *)
Variable parse_numeric : string -> option Q.

(** [pd.to_numeric(_, errors='coerce')] on one cell. *)
Definition to_numeric_coerce (c : Cell) : Cell :=
  match c with
  | NA => NA
  | Num q => Num q
  | Str s => match parse_numeric s with
             | Some q => Num q
             | None => NA
             end
  end.

Definition numeric_columns : list Column := [Runs; Wickets; Bat_SR; Econ].

(** The body of the [for col in ...] loop. *)
Definition coerce_column (df : DataFrame) (col : Column) : DataFrame :=
  assign col (fun c => fillna_cell (Num 0) (to_numeric_coerce c)) df.

Definition clean_ipl_data (df : DataFrame) : DataFrame :=
  let df := fillna fill_values df in
  let df := fold_left coerce_column numeric_columns df in
  let df := drop_duplicates [Player; Team] df in
  df.

End Cleaner.

(** ** Exceptions, and a state-and-exception monad

    [Eff S A] is a computation over a mutable store [S] that returns an
    [A] or raises.  A raise keeps the store as it was when the exception
    left: nothing is rolled back. *)

Inductive Exception : Type :=
| FileNotFoundError   (* a path that does not exist *)
| FileExistsError     (* [os.makedirs] over a non-directory *)
| IsADirectoryError   (* writing a file over a directory *)
| ParseError          (* a reader could not parse the file *)
| TypeError           (* an operation refused a column's dtype *)
| ValueError          (* a failed conversion *)
| PlotError           (* the plotting back end raised *)
| ReferenceError.     (* a dangling object reference; never raised by the pipeline *)

Inductive result (A : Type) : Type :=
| Ok (a : A)
| Raise (e : Exception).
Arguments Ok {A} a.
Arguments Raise {A} e.

Definition is_ok {A} (r : result A) : bool :=
  match r with Ok _ => true | Raise _ => false end.

Definition Eff (S A : Type) : Type := S -> result A * S.

#[global] Instance Eff_ret {S} : MRet (Eff S) :=
  fun A (a : A) (s : S) => (Ok a, s).

#[global] Instance Eff_bind {S} : MBind (Eff S) :=
  fun A B (k : A -> Eff S B) (m : Eff S A) (s : S) =>
    match m s with
    | (Ok a, s') => k a s'
    | (Raise e, s') => (Raise e, s')
    end.

Definition raise {S A} (e : Exception) : Eff S A := fun s => (Raise e, s).

(** [for x in xs: body(x)] *)
Fixpoint for_each {S A} (xs : list A) (body : A -> Eff S unit) : Eff S unit :=
  match xs with
  | [] => mret tt
  | x :: xs' => body x ≫= fun _ => for_each xs' body
  end.

(** ** The Cleaner over DataFrame objects

    Python passes DataFrames by reference.  The store maps object
    references to the frames they hold; a pandas method that returns a
    frame allocates a fresh object, and [df[col] = ...] updates the object
    [df] refers to in place. *)

Definition ref : Type := positive.
Abbreviation Heap := (gmap ref DataFrame).

Definition new (df : DataFrame) : Eff Heap ref :=
  fun h => let l := fresh (dom h) in (Ok l, <[l := df]> h).

Definition deref (l : ref) : Eff Heap DataFrame :=
  fun h => match h !! l with
           | Some df => (Ok df, h)
           | None => (Raise ReferenceError, h)
           end.

Definition update (l : ref) (df : DataFrame) : Eff Heap unit :=
  fun h => match h !! l with
           | Some _ => (Ok tt, <[l := df]> h)
           | None => (Raise ReferenceError, h)
           end.

(** [df.fillna(value)] returns a new object. *)
Definition obj_fillna (value : list (Column * Cell)) (df : ref) : Eff Heap ref :=
  d ← deref df; new (fillna value d).

(** [df[col] = f(df[col])] mutates the object. *)
Definition obj_setitem (df : ref) (col : Column) (f : Cell -> Cell) : Eff Heap unit :=
  d ← deref df; update df (assign col f d).

(** [df.drop_duplicates(subset=...)] returns a new object. *)
Definition obj_drop_duplicates (subset : list Column) (df : ref) : Eff Heap ref :=
  d ← deref df; new (drop_duplicates subset d).

Section CleanerObjects.

Variable parse_numeric : string -> option Q.

(** [clean_ipl_data] with its local variable [df] rebound twice: first
    to the result of [fillna], last to the result of [drop_duplicates]. *)
Definition clean_ipl_data_obj (df : ref) : Eff Heap ref :=
  df1 ← obj_fillna fill_values df;
  _ ← for_each numeric_columns (fun col =>
        obj_setitem df1 col
          (fun c => fillna_cell (Num 0) (to_numeric_coerce parse_numeric c)));
  df2 ← obj_drop_duplicates [Player; Team] df1;
  mret df2.

End CleanerObjects.

(** ** Analyzer *)

(** A frame restricted to some columns, as [df[[c1, c2, c3]]] builds it:
    the header and, per row, the cells of those columns in that order. *)
Record Table : Type := mkTable {
  header : list Column;
  body : list (list Cell)
}.

Definition select (cols : list Column) (df : DataFrame) : Table :=
  mkTable cols (map (key_of cols) df).

(** [df[col]] *)
Definition column (col : Column) (df : DataFrame) : list Cell :=
  map (get col) df.

Definition is_str (c : Cell) : bool :=
  match c with Str _ => true | _ => false end.

(** A column has a numeric dtype when it holds no string: numbers and
    NaN only. *)
Definition numeric_dtype (s : list Cell) : bool :=
  forallb (fun c => negb (is_str c)) s.

(** The sort key of a cell of a numeric column; [None] is NaN. *)
Definition sort_key (c : Cell) : option Q :=
  match c with Num q => Some q | _ => None end.

(** [key_gtb a b]: [a] sorts strictly before [b] in descending order.
    NaN sorts after every number ([na_position='last']). *)
Definition key_gtb (a b : option Q) : bool :=
  match a, b with
  | Some p, Some q => negb (Qle_bool p q)
  | Some _, None => true
  | None, _ => false
  end.

Section StableSort.

Context {A : Type}.
Variable key : A -> option Q.

(** Descending insertion that keeps an element in front of the elements
    it ties with: [x] comes from further left in the input than
    everything already in [l]. *)
Fixpoint insert_desc (x : A) (l : list A) : list A :=
  match l with
  | [] => [x]
  | y :: l' =>
      if key_gtb (key y) (key x) then y :: insert_desc x l' else x :: y :: l'
  end.

Fixpoint sort_desc (l : list A) : list A :=
  match l with
  | [] => []
  | x :: l' => insert_desc x (sort_desc l')
  end.

End StableSort.

(** [df.nlargest(n, col)] with the default [keep='first']: the first [n]
    rows in descending order of [col], ties in their original order.
    pandas refuses a column of object dtype. *)
Definition nlargest (n : nat) (col : Column) (df : DataFrame) : result DataFrame :=
  if numeric_dtype (column col df)
  then Ok (take n (sort_desc (fun r => sort_key (get col r)) df))
  else Raise TypeError.

(** [Series.replace(old, new)] on one cell. *)
Definition replace_cell (old new : Cell) (c : Cell) : Cell :=
  if cell_eqb c old then new else c.

(** [Series.dropna()] *)
Definition dropna (s : list Cell) : list Cell :=
  List.filter (fun c => negb (is_na c)) s.

Fixpoint Qsum (l : list Q) : Q :=
  match l with
  | [] => 0%Q
  | q :: l' => (q + Qsum l')%Q
  end.

(** The numbers of a series, NaN skipped; [None] when a string is met. *)
Fixpoint numbers (s : list Cell) : option (list Q) :=
  match s with
  | [] => Some []
  | NA :: s' => numbers s'
  | Num q :: s' => option_map (cons q) (numbers s')
  | Str _ :: s' => None
  end.

(** [Series.mean()] with the default [skipna=True]: NaN for a series with
    no number in it, otherwise the sum over the count. *)
Definition mean (s : list Cell) : result Cell :=
  match numbers s with
  | None => Raise TypeError
  | Some [] => Ok NA
  | Some qs => Ok (Num (Qsum qs / inject_Z (Z.of_nat (length qs))))
  end.

(** The [pd.Series] of summary statistics, by label. *)
Record Summary : Type := mkSummary {
  Avg_Batting_SR : Cell;
  Avg_Bowling_Econ : Cell
}.

Section Analyzer.

(** How [float(...)] reads a string, for [astype(float)]. *)
Variable float_of_string : string -> option Q.

(** [Series.astype(float)] *)
Fixpoint astype_float (s : list Cell) : result (list Cell) :=
  match s with
  | [] => Ok []
  | c :: s' =>
      match astype_float s' with
      | Raise e => Raise e
      | Ok t =>
          match c with
          | Str x => match float_of_string x with
                     | Some q => Ok (Num q :: t)
                     | None => Raise ValueError
                     end
          | _ => Ok (c :: t)
          end
      end
  end.

Definition analyze_ipl (df : DataFrame) : result (Table * Table * Summary) :=
  match nlargest 10 Runs df with
  | Raise e => Raise e
  | Ok by_runs =>
  let top_runs := select [Player; Team; Runs] by_runs in
  match nlargest 10 Wickets df with
  | Raise e => Raise e
  | Ok by_wickets =>
  let top_wickets := select [Player; Team; Wickets] by_wickets in
  match mean (column Bat_SR df) with
  | Raise e => Raise e
  | Ok avg_sr =>
  match astype_float (dropna (map (replace_cell (Num 0) NA) (column Econ df))) with
  | Raise e => Raise e
  | Ok bowlers =>
  match mean bowlers with
  | Raise e => Raise e
  | Ok avg_econ =>
      Ok (top_runs, top_wickets, mkSummary avg_sr avg_econ)
  end end end end end.

End Analyzer.

(** ** The file system *)

(** A rendered raster image, as its bytes. *)
Definition Image : Type := string.

(** One worksheet: its title, its cell grid, and the images anchored on
    it in the order they were added ([ws._images]). *)
Record Sheet : Type := mkSheet {
  title : string;
  cells : list (list Cell);
  images : list (string * Image)
}.

(** A workbook is the list of its sheets in tab order. *)
Abbreviation Workbook := (list Sheet).

Inductive File : Type :=
| Directory
| Text (content : string)
| Png (img : Image)
| Xlsx (wb : Workbook).

(** Paths are flat names; the store maps the paths that exist. *)
Abbreviation FS := (gmap string File).

(** [os.path.exists(path)] *)
Definition os_path_exists (path : string) : Eff FS bool :=
  fun fs => (Ok (bool_decide (is_Some (fs !! path))), fs).

(** [s.endswith(suffix)] *)
Definition endswith (s suffix : string) : bool :=
  let n := String.length suffix in
  let m := String.length s in
  (n <=? m)%nat && String.eqb (String.substring (m - n) n s) suffix.

(** [os.path.join(a, b)] on POSIX paths. *)
Definition os_path_join (a b : string) : string :=
  if String.prefix "/" b then b
  else if String.eqb a "" || endswith a "/" then a +:+ b
  else a +:+ "/" +:+ b.

(** [os.makedirs(path, exist_ok=True)] *)
Definition os_makedirs (path : string) : Eff FS unit :=
  fun fs => match fs !! path with
            | Some Directory => (Ok tt, fs)
            | Some _ => (Raise FileExistsError, fs)
            | None => (Ok tt, <[path := Directory]> fs)
            end.

(** Writing a whole file; the write itself is taken as atomic. *)
Definition write_file (path : string) (f : File) : Eff FS unit :=
  fun fs => match fs !! path with
            | Some Directory => (Raise IsADirectoryError, fs)
            | _ => (Ok tt, <[path := f]> fs)
            end.

(** ** Loader *)

Section Loader.

(** What [pd.read_excel] and [pd.read_csv] make of a file that exists:
    a frame, or nothing when they cannot parse it. *)
Variables read_excel read_csv : File -> option DataFrame.

Definition pd_read (reader : File -> option DataFrame) (path : string) : Eff FS DataFrame :=
  fun fs => match fs !! path with
            | None => (Raise FileNotFoundError, fs)
            | Some f => match reader f with
                        | Some df => (Ok df, fs)
                        | None => (Raise ParseError, fs)
                        end
            end.

Definition load_ipl_data (file_path : string) : Eff FS DataFrame :=
  found ← os_path_exists file_path;
  if negb found then raise FileNotFoundError
  else
    df ← (if endswith file_path ".xlsx"
          then pd_read read_excel file_path
          else pd_read read_csv file_path);
    mret df.

End Loader.

(** ** Chart Renderer *)

(** A Python [dict] with string keys, in insertion order.  [d[k] = v]
    overwrites in place when [k] is present and appends otherwise. *)
Fixpoint dict_set {V} (k : string) (v : V) (d : list (string * V)) : list (string * V) :=
  match d with
  | [] => [(k, v)]
  | (k', v') :: d' =>
      if String.eqb k' k then (k, v) :: d' else (k', v') :: dict_set k v d'
  end.

Section ChartRenderer.

(** The plotting back end.  [hist title s] stands for
    [plt.figure; sns.histplot(s, bins=20, kde=True); plt.title(title)] and
    the rasterisation of that figure, and [team_bar title col df] for the
    bar chart of [df.groupby('Team')[col].sum().sort_values(ascending=False)];
    [None] when one of those calls raises. *)
Variable hist : string -> list Cell -> option Image.
Variable team_bar : string -> Column -> DataFrame -> option Image.

(** [plt.savefig(path)] of a figure: drawing comes first, the file is
    written only once the figure has been drawn. *)
Definition savefig (figure : option Image) (path : string) : Eff FS unit :=
  match figure with
  | None => raise PlotError
  | Some img => write_file path (Png img)
  end.

Definition generate_charts (df : DataFrame) (charts_dir : string)
  : Eff FS (list (string * string)) :=
  _ ← os_makedirs charts_dir;
  let paths := [] in
  (* Runs Distribution *)
  let runs_path := os_path_join charts_dir "runs_dist.png" in
  _ ← savefig (hist "Runs Distribution" (column Runs df)) runs_path;
  let paths := dict_set "runs" runs_path paths in
  (* Wickets Distribution *)
  let wickets_path := os_path_join charts_dir "wickets_dist.png" in
  _ ← savefig (hist "Wickets Distribution" (column Wickets df)) wickets_path;
  let paths := dict_set "wickets" wickets_path paths in
  (* Team-wise Runs *)
  let team_runs_path := os_path_join charts_dir "team_runs.png" in
  _ ← savefig (team_bar "Total Runs by Team" Runs df) team_runs_path;
  let paths := dict_set "team_runs" team_runs_path paths in
  (* Team-wise Wickets *)
  let team_wkts_path := os_path_join charts_dir "team_wickets.png" in
  _ ← savefig (team_bar "Total Wickets by Team" Wickets df) team_wkts_path;
  let paths := dict_set "team_wickets" team_wkts_path paths in
  mret paths.

End ChartRenderer.

(** ** Chart Embedder *)

(** [load_workbook(path)] *)
Definition load_workbook (path : string) : Eff FS Workbook :=
  fun fs => match fs !! path with
            | Some (Xlsx wb) => (Ok wb, fs)
            | Some _ => (Raise ParseError, fs)
            | None => (Raise FileNotFoundError, fs)
            end.

(** [XLImage(path)] opens the picture when it is constructed. *)
Definition XLImage (path : string) : Eff FS Image :=
  fun fs => match fs !! path with
            | Some (Png img) => (Ok img, fs)
            | Some _ => (Raise ParseError, fs)
            | None => (Raise FileNotFoundError, fs)
            end.

(** [wb.sheetnames] *)
Definition sheetnames (wb : Workbook) : list string := map title wb.

(** ['name' in wb.sheetnames] *)
Definition has_sheet (name : string) (wb : Workbook) : bool :=
  existsb (String.eqb name) (sheetnames wb).

(** [wb.create_sheet(name)] for a name not yet taken: an empty sheet
    after the last tab. *)
Definition create_sheet (name : string) (wb : Workbook) : Workbook :=
  wb ++ [mkSheet name [] []].

(** [wb[name].add_image(img, anchor)]: the sheet is reached through the
    workbook, so the workbook sees the new image. *)
Fixpoint add_image (name : string) (img : Image) (anchor : string) (wb : Workbook) : Workbook :=
  match wb with
  | [] => []
  | ws :: wb' =>
      if String.eqb (title ws) name
      then mkSheet (title ws) (cells ws) (images ws ++ [(anchor, img)]) :: wb'
      else ws :: add_image name img anchor wb'
  end.

(** [f"A{row}"] *)
Definition anchor_at (row : nat) : string := "A" +:+ pretty row.

(** The loop of [embed_charts], with its counter [row] and the workbook
    it mutates. *)
Fixpoint place_charts (items : list (string * string)) (row : nat) (wb : Workbook)
  : Eff FS Workbook :=
  match items with
  | [] => mret wb
  | (label, path) :: rest =>
      img ← XLImage path;
      let wb := add_image "Charts" img (anchor_at row) wb in
      let row := row + 25 in
      place_charts rest row wb
  end.

Definition embed_charts (excel_file : string) (chart_paths : list (string * string))
  : Eff FS unit :=
  wb ← load_workbook excel_file;
  let wb := if negb (has_sheet "Charts" wb) then create_sheet "Charts" wb else wb in
  let row := 1 in
  wb ← place_charts chart_paths row wb;
  write_file excel_file (Xlsx wb).

(** ** Specification vocabulary *)

(** The field normalization the Cleaner applies to one record, before
    duplicates are looked for. *)
Definition normalize_row (parse_numeric : string -> option Q) (r : Row) : Row :=
  fold_left
    (fun r' col => set col (fillna_cell (Num 0) (to_numeric_coerce parse_numeric (get col r'))) r')
    numeric_columns
    (fold_left (fun r' kv => set (fst kv) (fillna_cell (snd kv) (get (fst kv) r')) r')
               fill_values r).

(** The identity of a record: its (name, team) pair. *)
Definition identity (r : Row) : list Cell := key_of [Player; Team] r.

Definition same_identity (r1 r2 : Row) : bool :=
  key_eqb (identity r1) (identity r2).

(** No field of the record is missing. *)
Definition no_missing (r : Row) : Prop :=
  forall col, get col r <> NA.

Definition is_number (c : Cell) : Prop :=
  exists q, c = Num q.

Definition is_nonneg_number (c : Cell) : Prop :=
  exists q, c = Num q /\ (0 <= q)%Q.

(** No two records, at different positions, share an identity. *)
Definition unique_identities (df : DataFrame) : Prop :=
  forall i j r1 r2,
    df !! i = Some r1 -> df !! j = Some r2 -> i <> j -> same_identity r1 r2 = false.

(** The cleaning invariant in the words of the data model: nothing
    missing, the five numeric fields valid non-negative numbers, no shared
    identity. *)
Definition cleaning_invariant (df : DataFrame) : Prop :=
  (forall r, r ∈ df -> no_missing r) /\
  (forall r col, r ∈ df -> col ∈ [Matches; Runs; Bat_SR; Wickets; Econ] ->
                 is_nonneg_number (get col r)) /\
  unique_identities df.

(** What the Cleaner establishes: nothing missing, the four coerced
    columns hold numbers, no shared identity. *)
Definition Cleaned (df : DataFrame) : Prop :=
  (forall r, r ∈ df -> no_missing r) /\
  (forall r col, r ∈ df -> col ∈ numeric_columns -> is_number (get col r)) /\
  unique_identities df.

(** The number a cell holds (0 for a cell that holds none). *)
Definition value_of (c : Cell) : Q :=
  match c with Num q => q | _ => 0%Q end.

Definition economy (r : Row) : Q := value_of (r_econ r).

(** The records whose economy is nonzero. *)
Definition bowlers (df : DataFrame) : DataFrame :=
  List.filter (fun r => negb (Qeq_bool (economy r) 0)) df.

(** The rows of a top-N view: name, team and the metric, per record. *)
Definition projection (metric : Column) (df : DataFrame) : list (list Cell) :=
  map (fun r => [r_player r; r_team r; get metric r]) df.

(** Descending by a metric, by position. *)
Definition descending (metric : Column) (df : DataFrame) : Prop :=
  forall i j a b,
    (i < j)%nat -> df !! i = Some a -> df !! j = Some b ->
    (value_of (get metric b) <= value_of (get metric a))%Q.

(** The records tied at a value of the metric keep the order they have
    in the dataset. *)
Definition ties_in_dataset_order (metric : Column) (ranked df : DataFrame) : Prop :=
  forall q,
    List.filter (fun r => cell_eqb (get metric r) (Num q)) ranked =
    List.filter (fun r => cell_eqb (get metric r) (Num q)) df.

(** Images stacked from a first row downwards, 25 rows apart. *)
Fixpoint stacked (row : nat) (imgs : list Image) : list (string * Image) :=
  match imgs with
  | [] => []
  | img :: rest => (anchor_at row, img) :: stacked (row + 25) rest
  end.

(** Appending a batch of anchored images to the sheet [wb[name]]. *)
Fixpoint add_images (name : string) (extra : list (string * Image)) (wb : Workbook) : Workbook :=
  match wb with
  | [] => []
  | ws :: wb' =>
      if String.eqb (title ws) name
      then mkSheet (title ws) (cells ws) (images ws ++ extra) :: wb'
      else ws :: add_images name extra wb'
  end.

(** The chart files a mapping names, in the mapping's order: [imgs] are
    the pictures stored at the paths of [chart_paths]. *)
Definition pictures_at (fs : gmap string File) (chart_paths : list (string * string))
    (imgs : list Image) : Prop :=
  Forall2 (fun item img => fs !! snd item = Some (Png img)) chart_paths imgs.

(** The mapping the Chart Renderer returns on success, and the figures it
    asks the back end for, chart by chart. *)
Definition chart_paths_of (charts_dir : string) : list (string * string) :=
  [ ("runs", os_path_join charts_dir "runs_dist.png");
    ("wickets", os_path_join charts_dir "wickets_dist.png");
    ("team_runs", os_path_join charts_dir "team_runs.png");
    ("team_wickets", os_path_join charts_dir "team_wickets.png") ].

Definition figures_of (hist : string -> list Cell -> option Image)
    (team_bar : string -> Column -> DataFrame -> option Image)
    (df : DataFrame) : list (option Image) :=
  [ hist "Runs Distribution" (column Runs df);
    hist "Wickets Distribution" (column Wickets df);
    team_bar "Total Runs by Team" Runs df;
    team_bar "Total Wickets by Team" Wickets df ].

(** After a run, a chart file either is as it was before the run or holds
    the whole figure. *)
Definition whole_or_untouched (fs fs' : gmap string File) (path : string)
    (figure : option Image) : Prop :=
  fs' !! path = fs !! path \/
  exists img, figure = Some img /\ fs' !! path = Some (Png img).

(** The directory can be made and no chart path is taken by a directory. *)
Definition writable (fs : gmap string File) (charts_dir : string) : Prop :=
  (fs !! charts_dir = None \/ fs !! charts_dir = Some Directory) /\
  (forall item, item ∈ chart_paths_of charts_dir -> fs !! snd item <> Some Directory).

Definition of_option {A} (e : Exception) (o : option A) : result A :=
  match o with Some a => Ok a | None => Raise e end.

(** ** Sample data *)

(** A reader of unsigned decimal integers, used as the text parser in the
    worked examples. *)
Fixpoint digits_value (acc : Z) (s : string) : option Z :=
  match s with
  | EmptyString => Some acc
  | String c s' =>
      let n := Z.of_nat (Ascii.nat_of_ascii c) in
      if (48 <=? n)%Z && (n <=? 57)%Z
      then digits_value (10 * acc + (n - 48)) s'
      else None
  end.

Definition parse_decimal (s : string) : option Q :=
  match s with
  | EmptyString => None
  | _ => option_map inject_Z (digits_value 0 s)
  end.

Definition player (name tm : string) (m rs : Z) (sr : Q) (wk : Z) (ec : Q) : Row :=
  mkRow (Str name) (Str "Batter") (Str tm) (Num (inject_Z m)) (Num (inject_Z rs))
        (Num sr) (Num (inject_Z wk)) (Num ec).

(** The two-record example of the specification. *)
Definition squad : DataFrame :=
  [ player "A" "T1" 10 50 (120 # 1) 0 0;
    player "B" "T1" 12 80 (135 # 1) 2 (15 # 2) ].






(** A plotting back end that draws every figure, whatever the data. *)
Definition draw_hist (title : string) (s : list Cell) : option Image :=
  Some ("hist:" +:+ title).

Definition draw_team_bar (title : string) (col : Column) (df : DataFrame) : option Image :=
  Some ("bar:" +:+ title).

(** A back end whose bar charts refuse an empty frame. *)
Definition strict_team_bar (title : string) (col : Column) (df : DataFrame) : option Image :=
  match df with
  | [] => None
  | _ => Some ("bar:" +:+ title)
  end.

(** Three batters level on runs, with a fourth ahead of them. *)
Definition level_on_runs : DataFrame :=
  [ player "P" "T1" 5 40 (100 # 1) 0 0;
    player "Q" "T2" 5 40 (100 # 1) 1 (6 # 1);
    player "R" "T3" 5 70 (100 # 1) 3 (9 # 1);
    player "S" "T4" 5 40 (100 # 1) 1 (8 # 1) ].


Definition chart_mapping : list (string * string) :=
  [ ("runs", "charts/runs_dist.png"); ("wickets", "charts/wickets_dist.png");
    ("team_runs", "charts/team_runs.png"); ("team_wickets", "charts/team_wickets.png") ].


(** ** Report Writer *)

(** The header name of a column. *)
Definition column_name (col : Column) : string :=
  match col with
  | Player => "Player"
  | Role => "Role"
  | Team => "Team"
  | Matches => "Matches"
  | Runs => "Runs"
  | Bat_SR => "Bat_SR"
  | Wickets => "Wickets"
  | Econ => "Econ"
  end.

(** What [to_excel] writes for a cell: a missing value is written as the
    empty text (the default [na_rep='']). *)
Definition excel_value (c : Cell) : Cell :=
  match c with NA => Str "" | _ => c end.

(** [frame.to_excel(writer, sheet_name=name, index=False)]: a new sheet
    after the ones the writer holds, with the header row and then the
    rows of the frame in their order. *)
Definition to_excel (name : string) (columns : list string) (rows : list (list Cell))
    (book : Workbook) : Workbook :=
  book ++ [mkSheet name (map Str columns :: map (map excel_value) rows) []].

(** [summary.rename("Value").reset_index().rename(columns={'index': 'Metric'})]:
    the labels of the series become the column Metric, its values the
    column Value. *)
Definition summary_frame (summary : Summary) : list string * list (list Cell) :=
  ( ["Metric"; "Value"],
    [ [Str "Avg_Batting_SR"; Avg_Batting_SR summary];
      [Str "Avg_Bowling_Econ"; Avg_Bowling_Econ summary] ] ).

(** The [with pd.ExcelWriter(output_file, engine='openpyxl')] block: the
    writer starts from a book without sheets and saves it over the file
    when the block is left. *)
Definition export_report (output_file : string) (top_runs top_wickets : Table)
    (summary : Summary) : Eff FS unit :=
  let writer := [] in
  let writer := to_excel "Top_Run_Scorers" (map column_name (header top_runs))
                  (body top_runs) writer in
  let writer := to_excel "Top_Wicket_Takers" (map column_name (header top_wickets))
                  (body top_wickets) writer in
  let summary_df := summary_frame summary in
  let writer := to_excel "Summary" (fst summary_df) (snd summary_df) writer in
  write_file output_file (Xlsx writer).

(** ** Orchestration *)

(** A pure computation that may raise, run inside [Eff]. *)
Definition lift {S A} (r : result A) : Eff S A := fun s => (r, s).

Section Orchestration.

Variables read_excel read_csv : File -> option DataFrame.
Variable parse_numeric : string -> option Q.
Variable float_of_string : string -> option Q.
Variable hist : string -> list Cell -> option Image.
Variable team_bar : string -> Column -> DataFrame -> option Image.

(** [main] of [main.py]; what it prints is what it returns here. *)
Definition main : Eff FS (Table * Table * Summary * string) :=
  let source_file := "ipl_data.xlsx" in
  let output_excel := "ipl_analysis_report.xlsx" in
  let charts_dir := "charts" in
  df ← load_ipl_data read_excel read_csv source_file;
  let df := clean_ipl_data parse_numeric df in
  analysis ← lift (analyze_ipl float_of_string df);
  let top_runs := fst (fst analysis) in
  let top_wickets := snd (fst analysis) in
  let summary := snd analysis in
  _ ← export_report output_excel top_runs top_wickets summary;
  chart_paths ← generate_charts hist team_bar df charts_dir;
  _ ← embed_charts output_excel chart_paths;
  mret (top_runs, top_wickets, summary, output_excel).

End Orchestration.

(** ** Player search ([gui_app.py]) *)

(** What a call of [search_player] comes to: a returned value ([None] or
    a row), or the [AttributeError] of the [.str] accessor. *)
Inductive SearchResult : Type :=
| Return (r : option Row)
| AttributeError.

(** [Series.str]: pandas accepts the accessor on text and on mixed
    values, and refuses a column of numbers.  A frame without rows keeps
    the object dtype it was read with. *)
Definition str_accessor_ok (s : list Cell) : bool :=
  match s with
  | [] => true
  | _ => existsb is_str s
  end.

(** [Series.str.f()] on one cell: what is not text becomes NaN. *)
Definition str_method (f : string -> string) (c : Cell) : Cell :=
  match c with Str x => Str (f x) | _ => NA end.

(** [cell == text], elementwise: NaN equals nothing. *)
Definition eq_text (text : string) (c : Cell) : bool :=
  match c with Str x => String.eqb x text | _ => false end.

(** [df[mask]] *)
Fixpoint boolean_index {A} (l : list A) (mask : list bool) : list A :=
  match l, mask with
  | x :: l', b :: mask' =>
      if b then x :: boolean_index l' mask' else boolean_index l' mask'
  | _, _ => []
  end.

Section Search.

(** Python's [str.strip()] and [str.lower()]. *)
Variables py_strip py_lower : string -> string.

Definition search_player (df : DataFrame) (player_name : string) : SearchResult :=
  if String.eqb (py_strip player_name) "" then Return None
  else if negb (str_accessor_ok (column Player df)) then AttributeError
  else
    let names := map (str_method py_lower) (map (str_method py_strip) (column Player df)) in
    let mask := map (eq_text (py_lower (py_strip player_name))) names in
    let result := boolean_index df mask in
    match result with
    | r :: _ => Return (Some r)
    | [] => Return None
    end.

(** A record answers a query when its name is a text that equals the
    query once both are stripped and lowered. *)
Definition answers (player_name : string) (r : Row) : bool :=
  match r_player r with
  | Str x => String.eqb (py_lower (py_strip x)) (py_lower (py_strip player_name))
  | _ => false
  end.

End Search.

(** The three sheets the Report Writer makes of an analysis. *)
Definition report_sheets (top_runs top_wickets : Table) (summary : Summary) : Workbook :=
  [ mkSheet "Top_Run_Scorers"
      (map Str (map column_name (header top_runs)) :: map (map excel_value) (body top_runs)) [];
    mkSheet "Top_Wicket_Takers"
      (map Str (map column_name (header top_wickets))
         :: map (map excel_value) (body top_wickets)) [];
    mkSheet "Summary"
      [ [Str "Metric"; Str "Value"];
        [Str "Avg_Batting_SR"; excel_value (Avg_Batting_SR summary)];
        [Str "Avg_Bowling_Econ"; excel_value (Avg_Bowling_Econ summary)] ] [] ].


(** A view holds the top of a metric: it is the first ten Records of a
    ranking of the whole Dataset in which no Record left out has more of
    the metric than a Record taken, whose first Record has the maximum,
    and which is taken whole when the Dataset has ten Records or fewer. *)
Definition holds_the_top (metric : Column) (df : DataFrame) (view : Table) : Prop :=
  exists ranked,
    body view = projection metric (take 10 ranked) /\
    take 10 ranked ++ drop 10 ranked ≡ₚ df /\
    (forall a b, a ∈ take 10 ranked -> b ∈ drop 10 ranked ->
       (value_of (get metric b) <= value_of (get metric a))%Q) /\
    (forall a r, head ranked = Some a -> r ∈ df ->
       (value_of (get metric r) <= value_of (get metric a))%Q) /\
    ((length df <= 10)%nat -> take 10 ranked ≡ₚ df).


(** The paths a run of [main] may write. *)
Definition main_outputs : list string :=
  "ipl_analysis_report.xlsx" :: "charts" :: map snd (chart_paths_of "charts").

(** *** Sample text functions and frames *)

Definition is_space (c : Ascii.ascii) : bool :=
  let n := Ascii.nat_of_ascii c in
  (n =? 32)%nat || ((9 <=? n)%nat && (n <=? 13)%nat) || ((28 <=? n)%nat && (n <=? 31)%nat).

Fixpoint lstrip (s : string) : string :=
  match s with
  | EmptyString => EmptyString
  | String c s' => if is_space c then lstrip s' else s
  end.

(** [str.strip()] on ASCII text. *)
Definition ascii_strip (s : string) : string :=
  String.rev (lstrip (String.rev (lstrip s))).

Definition lower_char (c : Ascii.ascii) : Ascii.ascii :=
  let n := Ascii.nat_of_ascii c in
  if (65 <=? n)%nat && (n <=? 90)%nat then Ascii.ascii_of_nat (n + 32) else c.

(** [str.lower()] on ASCII text. *)
Fixpoint ascii_lower (s : string) : string :=
  match s with
  | EmptyString => EmptyString
  | String c s' => String (lower_char c) (ascii_lower s')
  end.

(** Readers that find the two-record squad in any file. *)
Definition read_squad (f : File) : option DataFrame := Some squad.

(** A disk that holds the source workbook and nothing else. *)
Definition source_disk : gmap string File :=
  {[ "ipl_data.xlsx" := Text "Player,Role,Team,Matches,Runs,Bat_SR,Wickets,Econ" ]}.

(** A frame whose names are all numbers. *)
Definition numbered_players : DataFrame :=
  [ mkRow (Num 7) (Str "Batter") (Str "T1") (Num 1) (Num 10) (Num 100) (Num 0) (Num 0);
    mkRow (Num 18) (Str "Bowler") (Str "T2") (Num 2) (Num 5) (Num 80) (Num 3) (Num 7) ].

(** * Proofs *)

(** ** Equality of cells and of keys *)

Lemma cell_eqb_refl (a : Cell) : cell_eqb a a = true.
Proof.
  destruct a as [|s|q]; simpl; trivial.
  - apply String.eqb_refl.
  - apply Qeq_bool_iff. reflexivity.
Qed.

Lemma cell_eqb_sym (a b : Cell) : cell_eqb a b = cell_eqb b a.
Proof.
  destruct a as [|s|p], b as [|t|q]; simpl; trivial.
  - apply String.eqb_sym.
  - apply eq_true_iff_eq. rewrite !Qeq_bool_iff. split; intros H; symmetry; exact H.
Qed.

Lemma cell_eqb_trans (a b c : Cell) :
  cell_eqb a b = true -> cell_eqb b c = true -> cell_eqb a c = true.
Proof.
  destruct a as [|s|p], b as [|t|q], c as [|u|r]; simpl; try discriminate; trivial.
  - rewrite !String.eqb_eq. congruence.
  - rewrite !Qeq_bool_iff. intros H1 H2. rewrite H1. exact H2.
Qed.

Lemma key_eqb_refl (k : list Cell) : key_eqb k k = true.
Proof. induction k as [|a k IH]; simpl; [trivial|]. now rewrite cell_eqb_refl. Qed.

Lemma key_eqb_sym (k1 k2 : list Cell) : key_eqb k1 k2 = key_eqb k2 k1.
Proof.
  revert k2. induction k1 as [|a k1 IH]; intros [|b k2]; simpl; trivial.
  now rewrite cell_eqb_sym, IH.
Qed.

Lemma key_eqb_trans (k1 k2 k3 : list Cell) :
  key_eqb k1 k2 = true -> key_eqb k2 k3 = true -> key_eqb k1 k3 = true.
Proof.
  revert k2 k3. induction k1 as [|a k1 IH]; intros [|b k2] [|c k3]; simpl;
    try discriminate; trivial.
  rewrite !andb_true_iff. intros [H1 H2] [H3 H4]. split.
  - eapply cell_eqb_trans; eassumption.
  - eapply IH; eassumption.
Qed.

(** Two keys that are equal find the same keys in any list. *)
Lemma key_eqb_congr (k1 k2 : list Cell) (seen : list (list Cell)) :
  key_eqb k1 k2 = true -> existsb (key_eqb k1) seen = existsb (key_eqb k2) seen.
Proof.
  intros H. induction seen as [|k seen IH]; simpl; [trivial|].
  rewrite IH. f_equal. apply eq_true_iff_eq. split; intros E.
  - eapply key_eqb_trans; [|exact E]. now rewrite key_eqb_sym.
  - eapply key_eqb_trans; eassumption.
Qed.

(** ** [drop_duplicates] *)

Section DropDuplicates.

Variable subset : list Column.

Local Abbreviation key := (key_of subset).
Local Abbreviation ddf := (drop_duplicates_from subset).

Lemma ddf_seen_ext (s1 s2 : list (list Cell)) (l : DataFrame) :
  (forall k, existsb (key_eqb k) s1 = existsb (key_eqb k) s2) ->
  ddf s1 l = ddf s2 l.
Proof.
  revert s1 s2. induction l as [|r l IH]; intros s1 s2 H; simpl; [trivial|].
  rewrite (H (key r)). destruct (existsb (key_eqb (key r)) s2).
  - now apply IH.
  - f_equal. apply IH. intros k. simpl. now rewrite H.
Qed.

(** Scanning [l ++ l'] is scanning [l], then [l'] with every key of [l]
    known. *)
Lemma ddf_app (seen : list (list Cell)) (l l' : DataFrame) :
  ddf seen (l ++ l') = ddf seen l ++ ddf (map key l ++ seen) l'.
Proof.
  revert seen. induction l as [|r l IH]; intros seen; simpl; [trivial|].
  destruct (existsb (key_eqb (key r)) seen) eqn:E.
  - rewrite IH. f_equal. apply ddf_seen_ext. intros k.
    cbn [existsb]. rewrite !existsb_app.
    destruct (key_eqb k (key r)) eqn:Ek; simpl; [|trivial].
    rewrite (key_eqb_congr _ _ seen Ek), E. now rewrite !orb_true_r.
  - simpl. f_equal. rewrite IH. f_equal. apply ddf_seen_ext. intros k.
    cbn [existsb]. rewrite !existsb_app. cbn [existsb].
    destruct (existsb (key_eqb k) (map key l)), (key_eqb k (key r)),
      (existsb (key_eqb k) seen); reflexivity.
Qed.

Lemma ddf_snoc (seen : list (list Cell)) (l : DataFrame) (x : Row) :
  ddf seen (l ++ [x]) =
  ddf seen l ++ (if existsb (key_eqb (key x)) (map key l ++ seen) then [] else [x]).
Proof. rewrite ddf_app. simpl. now destruct (existsb _ _). Qed.



Lemma ddf_elem (seen : list (list Cell)) (l : DataFrame) (r : Row) :
  r ∈ ddf seen l -> r ∈ l /\ existsb (key_eqb (key r)) seen = false.
Proof.
  revert seen. induction l as [|x l IH]; intros seen; simpl.
  - intros H. inversion H.
  - destruct (existsb (key_eqb (key x)) seen) eqn:E.
    + intros H. destruct (IH _ H) as [H1 H2]. split; [now right | exact H2].
    + intros H. apply elem_of_cons in H as [->|H].
      * split; [now left | exact E].
      * destruct (IH _ H) as [H1 H2]. split; [now right|].
        simpl in H2. now apply orb_false_iff in H2 as [_ H2].
Qed.

Lemma ddf_sublist (seen : list (list Cell)) (l : DataFrame) : sublist (ddf seen l) l.
Proof.
  revert seen. induction l as [|x l IH]; intros seen; simpl; [constructor|].
  destruct (existsb (key_eqb (key x)) seen).
  - apply sublist_cons, IH.
  - apply sublist_skip, IH.
Qed.

(** Every key of the input is carried by a row of the output, unless it
    was known beforehand. *)
Lemma ddf_covers (seen : list (list Cell)) (l : DataFrame) (k : list Cell) :
  existsb (fun r => key_eqb k (key r)) l = true ->
  existsb (key_eqb k) seen = false ->
  existsb (fun r => key_eqb k (key r)) (ddf seen l) = true.
Proof.
  revert seen. induction l as [|x l IH]; intros seen; simpl; [discriminate|].
  intros H Hs. destruct (existsb (key_eqb (key x)) seen) eqn:E.
  - apply IH; [|exact Hs]. destruct (key_eqb k (key x)) eqn:Ek; [|exact H].
    rewrite (key_eqb_congr _ _ seen Ek) in Hs. congruence.
  - simpl. destruct (key_eqb k (key x)) eqn:Ek; [reflexivity|]. simpl.
    apply IH; [exact H|]. simpl. now rewrite Ek.
Qed.

End DropDuplicates.

(** ** Identities *)

Lemma same_identity_sym (r1 r2 : Row) : same_identity r1 r2 = same_identity r2 r1.
Proof. apply key_eqb_sym. Qed.

Lemma unique_identities_nil : unique_identities [].
Proof. intros i j r1 r2 H. now rewrite lookup_nil in H. Qed.

Lemma unique_identities_cons (r : Row) (l : DataFrame) :
  unique_identities (r :: l) <->
  (forall r', r' ∈ l -> same_identity r r' = false) /\ unique_identities l.
Proof.
  split.
  - intros U. split.
    + intros r' Hin. apply list_elem_of_lookup in Hin as [j Hj].
      apply (U 0%nat (S j)); [reflexivity | exact Hj | lia].
    + intros i j r1 r2 H1 H2 Hne. apply (U (S i) (S j)); [exact H1 | exact H2 | lia].
  - intros [Hd U] i j r1 r2 H1 H2 Hne.
    destruct i as [|i], j as [|j]; simpl in H1, H2.
    + lia.
    + injection H1 as <-. apply Hd. apply list_elem_of_lookup. eauto.
    + injection H2 as <-. rewrite same_identity_sym. apply Hd.
      apply list_elem_of_lookup. eauto.
    + apply (U i j); [exact H1 | exact H2 | lia].
Qed.

Lemma drop_duplicates_from_unique (seen : list (list Cell)) (l : DataFrame) :
  unique_identities (drop_duplicates_from [Player; Team] seen l).
Proof.
  revert seen. induction l as [|r l IH]; intros seen; simpl.
  - apply unique_identities_nil.
  - destruct (existsb _ seen) eqn:E; [apply IH|].
    apply unique_identities_cons. split; [|apply IH].
    intros r' Hin. apply ddf_elem in Hin as [_ Hin]. simpl in Hin.
    apply orb_false_iff in Hin as [Hin _].
    unfold same_identity, identity. now rewrite key_eqb_sym.
Qed.

(** Rows that already have pairwise different identities all survive. *)
Lemma drop_duplicates_from_id (seen : list (list Cell)) (l : DataFrame) :
  unique_identities l ->
  (forall r, r ∈ l -> existsb (key_eqb (identity r)) seen = false) ->
  drop_duplicates_from [Player; Team] seen l = l.
Proof.
  revert seen. induction l as [|r l IH]; intros seen U Hs; [reflexivity|].
  apply unique_identities_cons in U as [Hd U].
  cbn [drop_duplicates_from]. fold (identity r). rewrite (Hs r) by now left.
  f_equal. apply IH; [exact U|].
  intros r' Hin. cbn [existsb]. rewrite (Hs r') by now right.
  rewrite orb_false_r. fold (same_identity r' r). rewrite same_identity_sym. now apply Hd.
Qed.

(** ** The Cleaner, record by record *)

Section CleanerFacts.

Variable parse_numeric : string -> option Q.

Local Abbreviation normalize := (normalize_row parse_numeric).
Local Abbreviation clean := (clean_ipl_data parse_numeric).
Local Abbreviation coerce := (fun c => fillna_cell (Num 0) (to_numeric_coerce parse_numeric c)).

Lemma normalize_row_fields (r : Row) :
  normalize r =
  mkRow (fillna_cell (Str "Unknown") (r_player r))
        (fillna_cell (Str "Unknown") (r_role r))
        (fillna_cell (Str "Unknown") (r_team r))
        (fillna_cell (Num 0) (r_matches r))
        (coerce (fillna_cell (Num 0) (r_runs r)))
        (coerce (fillna_cell (Num 0) (r_bat_sr r)))
        (coerce (fillna_cell (Num 0) (r_wickets r)))
        (coerce (fillna_cell (Num 0) (r_econ r))).
Proof. destruct r. reflexivity. Qed.

(** Cleaning is field normalization of every record, then removal of
    duplicates. *)
Lemma clean_ipl_data_eq (df : DataFrame) :
  clean df = drop_duplicates [Player; Team] (map normalize df).
Proof.
  unfold clean_ipl_data. f_equal. unfold fillna, numeric_columns. simpl.
  unfold coerce_column, assign. rewrite !map_map. apply map_ext.
  intros r. reflexivity.
Qed.

Lemma coerce_is_number (c : Cell) : is_number (coerce c).
Proof.
  destruct c as [|s|q]; simpl.
  - now exists 0%Q.
  - destruct (parse_numeric s) as [q|]; simpl; [now exists q | now exists 0%Q].
  - now exists q.
Qed.

Lemma fillna_cell_not_na (v c : Cell) : v <> NA -> fillna_cell v c <> NA.
Proof. destruct c; simpl; [trivial | discriminate | discriminate]. Qed.

Lemma coerce_not_na (c : Cell) : coerce c <> NA.
Proof. destruct (coerce_is_number c) as [q ->]. discriminate. Qed.

Lemma normalize_no_missing (r : Row) : no_missing (normalize r).
Proof.
  intros col. rewrite normalize_row_fields.
  destruct col; simpl; try apply coerce_not_na; now apply fillna_cell_not_na.
Qed.

Lemma normalize_numeric (r : Row) (col : Column) :
  col ∈ numeric_columns -> is_number (get col (normalize r)).
Proof.
  intros Hin. rewrite normalize_row_fields.
  unfold numeric_columns in Hin. rewrite !elem_of_cons in Hin.
  destruct Hin as [->|[->|[->|[->|Hin]]]]; simpl; try apply coerce_is_number.
  inversion Hin.
Qed.

(** A record with nothing missing and numbers in the coerced columns is
    left as it is. *)
Lemma normalize_fixed (r : Row) :
  no_missing r ->
  (forall col, col ∈ numeric_columns -> is_number (get col r)) ->
  normalize r = r.
Proof.
  intros Hm Hn. rewrite normalize_row_fields.
  assert (F : forall col v, fillna_cell v (get col r) = get col r).
  { intros col v. specialize (Hm col). destruct (get col r); simpl; congruence. }
  assert (C : forall col, col ∈ numeric_columns -> coerce (get col r) = get col r).
  { intros col Hin. destruct (Hn col Hin) as [q ->]. reflexivity. }
  pose proof (F Player) as F1. pose proof (F Role) as F2. pose proof (F Team) as F3.
  pose proof (F Matches) as F4. pose proof (F Runs) as F5. pose proof (F Bat_SR) as F6.
  pose proof (F Wickets) as F7. pose proof (F Econ) as F8.
  simpl in F1, F2, F3, F4, F5, F6, F7, F8.
  rewrite F1, F2, F3, F4, F5, F6, F7, F8.
  pose proof (C Runs) as C1. pose proof (C Bat_SR) as C2.
  pose proof (C Wickets) as C3. pose proof (C Econ) as C4.
  simpl in C1, C2, C3, C4. unfold numeric_columns in C1, C2, C3, C4.
  rewrite C1, C2, C3, C4 by (rewrite !elem_of_cons; tauto).
  now destruct r.
Qed.

Lemma clean_Cleaned (df : DataFrame) : Cleaned (clean df).
Proof.
  rewrite clean_ipl_data_eq. unfold drop_duplicates. split; [|split].
  - intros r Hin. apply ddf_elem in Hin as [Hin _].
    apply list_elem_of_In, in_map_iff in Hin as [r0 [<- _]]. apply normalize_no_missing.
  - intros r col Hin Hcol. apply ddf_elem in Hin as [Hin _].
    apply list_elem_of_In, in_map_iff in Hin as [r0 [<- _]]. now apply normalize_numeric.
  - apply drop_duplicates_from_unique.
Qed.

Lemma Cleaned_fixed (df : DataFrame) : Cleaned df -> clean df = df.
Proof.
  intros (Hm & Hn & U). rewrite clean_ipl_data_eq.
  replace (map normalize df) with df.
  - apply drop_duplicates_from_id; [exact U | reflexivity].
  - symmetry. rewrite <- (map_id df) at 2. apply map_ext_in. intros r Hin.
    apply list_elem_of_In in Hin. apply normalize_fixed; [now apply Hm|].
    intros col Hcol. now apply Hn.
Qed.

Lemma cleaning_invariant_Cleaned (df : DataFrame) : cleaning_invariant df -> Cleaned df.
Proof.
  intros (Hm & Hn & U). split; [exact Hm | split; [|exact U]].
  intros r col Hin Hcol. destruct (Hn r col Hin) as [q [-> _]]; [|now exists q].
  unfold numeric_columns in Hcol. rewrite !elem_of_cons in *. tauto.
Qed.

End CleanerFacts.

(** ** Claims about the Cleaner *)

Section CleanerClaims.

Variable parse_numeric : string -> option Q.

Local Abbreviation normalize := (normalize_row parse_numeric).
Local Abbreviation clean := (clean_ipl_data parse_numeric).






(** C4.  Cleaning is idempotent: a Dataset that already satisfies the
    cleaning invariant is returned equal to the input, and for every
    Dataset d, clean(clean(d)) = clean(d). *)
Theorem clean_ipl_data_idempotent (df : DataFrame) :
  (cleaning_invariant df -> clean df = df) /\
  clean (clean df) = clean df.
Proof.
  split.
  - intros H. apply Cleaned_fixed. now apply cleaning_invariant_Cleaned.
  - apply Cleaned_fixed. apply clean_Cleaned.
Qed.


End CleanerClaims.

Lemma squad_invariant : cleaning_invariant squad.
Proof.
  unfold squad. split; [|split].
  - intros r Hr col. rewrite !elem_of_cons in Hr.
    destruct Hr as [->|[->|Hr]]; [| |inversion Hr]; destruct col; discriminate.
  - intros r col Hr Hcol. rewrite !elem_of_cons in Hr. rewrite !elem_of_cons in Hcol.
    destruct Hr as [->|[->|Hr]]; [| |inversion Hr];
      destruct Hcol as [->|[->|[->|[->|[->|Hcol]]]]]; try (inversion Hcol; fail);
      (eexists; split; [reflexivity | discriminate]).
  - apply unique_identities_cons. split.
    + intros r' Hr. rewrite !elem_of_cons in Hr.
      destruct Hr as [->|Hr]; [reflexivity | inversion Hr].
    + apply unique_identities_cons. split; [|apply unique_identities_nil].
      intros r' Hr. inversion Hr.
Qed.

Lemma clean_ipl_data_idempotent_witness :
  cleaning_invariant squad /\ clean_ipl_data parse_decimal squad = squad.
Proof.
  split; [exact squad_invariant|].
  exact (proj1 (clean_ipl_data_idempotent parse_decimal squad) squad_invariant).
Defined.




(** The duplicate example of the specification: of two Records with
    identity ("A", "T1") and differing statistics, the first is kept. *)
Example clean_ipl_data_keeps_first :
  clean_ipl_data parse_decimal
    [ player "A" "T1" 10 50 (120 # 1) 0 0;
      player "B" "T1" 12 80 (135 # 1) 2 (15 # 2);
      player "A" "T1" 11 99 (150 # 1) 1 (7 # 1) ] =
  [ player "A" "T1" 10 50 (120 # 1) 0 0;
    player "B" "T1" 12 80 (135 # 1) 2 (15 # 2) ].
Proof. reflexivity. Qed.

(** Missing and unparseable values are filled. *)
Example clean_ipl_data_fills :
  clean_ipl_data parse_decimal
    [ mkRow NA NA (Str "T1") NA (Str "45") (Str "n/a") NA (Str "") ] =
  [ mkRow (Str "Unknown") (Str "Unknown") (Str "T1") (Num 0) (Num 45) (Num 0)
          (Num 0) (Num 0) ].
Proof. reflexivity. Qed.

(** ** The Cleaner over objects *)

Lemma bind_run {S A B} (m : Eff S A) (k : A -> Eff S B) (s : S) :
  (m ≫= k) s = match m s with
               | (Ok a, s') => k a s'
               | (Raise e, s') => (Raise e, s')
               end.
Proof. reflexivity. Qed.

Lemma deref_run (h : gmap ref DataFrame) (l : ref) (d : DataFrame) :
  h !! l = Some d -> deref l h = (Ok d, h).
Proof. intros H. unfold deref. now rewrite H. Qed.

Lemma obj_setitem_run (h : gmap ref DataFrame) (l : ref) (d : DataFrame)
    (col : Column) (f : Cell -> Cell) :
  h !! l = Some d ->
  obj_setitem l col f h = (Ok tt, <[l := assign col f d]> h).
Proof.
  intros H. unfold obj_setitem. rewrite bind_run, (deref_run _ _ _ H).
  unfold update. now rewrite H.
Qed.

(** The loop over the columns only ever writes to the object it is
    given. *)
Lemma coerce_loop_run (f : Cell -> Cell) (cols : list Column)
    (h : gmap ref DataFrame) (l : ref) (d : DataFrame) :
  h !! l = Some d ->
  for_each cols (fun col => obj_setitem l col f) h =
  (Ok tt, <[l := fold_left (fun d' col => assign col f d') cols d]> h).
Proof.
  revert h d. induction cols as [|col cols IH]; intros h d H; simpl.
  - unfold mret, Eff_ret. now rewrite insert_id.
  - rewrite bind_run, (obj_setitem_run _ _ _ _ _ H).
    rewrite (IH _ (assign col f d)) by apply lookup_insert_eq.
    now rewrite insert_insert_eq.
Qed.

Section CleanerObjectClaims.

Variable parse_numeric : string -> option Q.

(** C5.  The Cleaner is a pure function: run on any store in which [df]
    refers to a Dataset [d], it returns a reference to a new object that
    holds the cleaned Dataset, and every object that existed before the
    call, the caller's table included, holds what it held. *)
Theorem clean_ipl_data_pure (h : gmap ref DataFrame) (df : ref) (d : DataFrame) :
  h !! df = Some d ->
  exists (df' : ref) (h' : gmap ref DataFrame),
    clean_ipl_data_obj parse_numeric df h = (Ok df', h') /\
    h' !! df' = Some (clean_ipl_data parse_numeric d) /\
    h !! df' = None /\
    h' !! df = Some d /\
    (forall l, is_Some (h !! l) -> h' !! l = h !! l).
Proof.
  intros H. unfold clean_ipl_data_obj, obj_fillna, obj_drop_duplicates.
  rewrite !bind_run, (deref_run _ _ _ H). unfold new at 1. cbv zeta.
  set (l1 := fresh (dom h)).
  assert (F1 : h !! l1 = None).
  { apply not_elem_of_dom. apply is_fresh. }
  rewrite bind_run.
  rewrite (coerce_loop_run _ _ _ l1 (fillna fill_values d)) by apply lookup_insert_eq.
  rewrite insert_insert_eq, !bind_run.
  erewrite deref_run by apply lookup_insert_eq.
  unfold new. cbv zeta.
  set (h1 := <[l1 := _]> h).
  set (l2 := fresh (dom h1)).
  assert (F2 : h1 !! l2 = None).
  { apply not_elem_of_dom. apply is_fresh. }
  assert (N12 : l1 <> l2).
  { intros E. rewrite <- E in F2. unfold h1 in F2. now rewrite lookup_insert_eq in F2. }
  assert (F3 : h !! l2 = None).
  { unfold h1 in F2. now rewrite lookup_insert_ne in F2. }
  exists l2, (<[l2 := drop_duplicates [Player; Team]
                        (fold_left (coerce_column parse_numeric) numeric_columns
                           (fillna fill_values d))]> h1).
  split; [reflexivity|]. split; [apply lookup_insert_eq|]. split; [exact F3|].
  assert (K : forall l, is_Some (h !! l) ->
              <[l2 := drop_duplicates [Player; Team]
                        (fold_left (coerce_column parse_numeric) numeric_columns
                           (fillna fill_values d))]> h1 !! l = h !! l).
  { intros l [x Hx]. unfold h1.
    rewrite !lookup_insert_ne; [reflexivity | congruence | congruence]. }
  split; [|exact K]. rewrite K; [exact H | eauto].
Qed.

End CleanerObjectClaims.

Lemma clean_ipl_data_pure_witness :
  exists (df' : ref) (h' : gmap ref DataFrame),
    clean_ipl_data_obj parse_decimal 1%positive {[ 1%positive := squad ]} = (Ok df', h') /\
    h' !! df' = Some (clean_ipl_data parse_decimal squad) /\
    ({[ 1%positive := squad ]} : gmap ref DataFrame) !! df' = None /\
    h' !! 1%positive = Some squad /\
    (forall l, is_Some (({[ 1%positive := squad ]} : gmap ref DataFrame) !! l) ->
               h' !! l = ({[ 1%positive := squad ]} : gmap ref DataFrame) !! l).
Proof.
  apply (clean_ipl_data_pure parse_decimal {[ 1%positive := squad ]} 1%positive squad).
  reflexivity.
Defined.

(** ** The descending order on sort keys *)

Lemma key_gtb_asym (a b : option Q) : key_gtb a b = true -> key_gtb b a = false.
Proof.
  destruct a as [p|], b as [q|]; simpl; trivial; try discriminate.
  rewrite negb_true_iff, negb_false_iff. intros H.
  apply Qle_bool_iff. apply Qlt_le_weak. apply Qnot_le_lt.
  intros L. apply Qle_bool_iff in L. congruence.
Qed.

(** "Not after" is transitive. *)
Lemma key_gtb_false_trans (a b c : option Q) :
  key_gtb b a = false -> key_gtb c b = false -> key_gtb c a = false.
Proof.
  destruct a as [p|], b as [q|], c as [r|]; simpl; trivial; try discriminate.
  rewrite !negb_false_iff, !Qle_bool_iff. intros H1 H2. eapply Qle_trans; eassumption.
Qed.

(** ** Stable descending sort *)

Section StableSortFacts.

Context {A : Type}.
Variable key : A -> option Q.

(** [a] may stand before [b]: [b] does not sort strictly before [a]. *)
Local Abbreviation before := (fun a b : A => key_gtb (key b) (key a) = false).

Lemma insert_desc_perm (x : A) (l : list A) : insert_desc key x l ≡ₚ x :: l.
Proof.
  induction l as [|y l IH]; simpl; [reflexivity|].
  destruct (key_gtb (key y) (key x)); [|reflexivity].
  rewrite IH. apply Permutation_swap.
Qed.

Lemma sort_desc_perm (l : list A) : sort_desc key l ≡ₚ l.
Proof.
  induction l as [|x l IH]; simpl; [reflexivity|].
  rewrite insert_desc_perm. now rewrite IH.
Qed.

Lemma insert_desc_sorted (x : A) (l : list A) :
  StronglySorted before l -> StronglySorted before (insert_desc key x l).
Proof.
  induction l as [|y l IH]; intros S; simpl.
  - constructor; [constructor | constructor].
  - apply StronglySorted_inv in S as [S F].
    destruct (key_gtb (key y) (key x)) eqn:E.
    + constructor; [now apply IH|].
      rewrite insert_desc_perm. constructor; [|exact F].
      now apply key_gtb_asym.
    + constructor; [now constructor|].
      constructor; [exact E|].
      eapply Forall_impl; [exact F|]. intros b Hb. simpl in *.
      eapply key_gtb_false_trans; [exact E | exact Hb].
Qed.

Lemma sort_desc_sorted (l : list A) : StronglySorted before (sort_desc key l).
Proof.
  induction l as [|x l IH]; simpl; [constructor | now apply insert_desc_sorted].
Qed.

(** A class of elements that tie with one another is left in its input
    order. *)
Section Stability.

Variable tied : A -> bool.
Hypothesis tied_ties :
  forall a b, tied a = true -> tied b = true -> key_gtb (key a) (key b) = false.

Lemma insert_desc_stable (x : A) (l : list A) :
  List.filter tied (insert_desc key x l) = List.filter tied (x :: l).
Proof.
  induction l as [|y l IH]; [reflexivity|].
  cbn [insert_desc]. destruct (key_gtb (key y) (key x)) eqn:E; [|reflexivity].
  cbn [List.filter] in *. rewrite IH.
  destruct (tied y) eqn:Ty, (tied x) eqn:Tx; try reflexivity.
  rewrite (tied_ties y x Ty Tx) in E. discriminate.
Qed.

Lemma sort_desc_stable (l : list A) :
  List.filter tied (sort_desc key l) = List.filter tied l.
Proof.
  induction l as [|x l IH]; [reflexivity|].
  cbn [sort_desc]. rewrite insert_desc_stable. cbn [List.filter]. now rewrite IH.
Qed.

End Stability.

End StableSortFacts.

Lemma StronglySorted_lookup_lt {A} (R : A -> A -> Prop) (l : list A) (i j : nat) (a b : A) :
  StronglySorted R l -> (i < j)%nat -> l !! i = Some a -> l !! j = Some b -> R a b.
Proof.
  intros S. revert i j. induction S as [|x l S IH F]; intros i j Hij Hi Hj.
  - now rewrite lookup_nil in Hi.
  - destruct j as [|j]; [lia|]. simpl in Hj. destruct i as [|i]; simpl in Hi.
    + injection Hi as <-. rewrite Forall_forall in F. apply F.
      apply list_elem_of_lookup. eauto.
    + apply (IH i j); [lia | exact Hi | exact Hj].
Qed.

(** ** The Analyzer on cleaned data *)

Lemma numeric_dtype_numbers (col : Column) (df : DataFrame) :
  (forall r, r ∈ df -> is_number (get col r)) ->
  numeric_dtype (column col df) = true.
Proof.
  intros H. unfold numeric_dtype, column. apply forallb_forall.
  intros c Hc. apply in_map_iff in Hc as [r [<- Hr]].
  apply list_elem_of_In in Hr. now destruct (H r Hr) as [q ->].
Qed.

Lemma nlargest_numbers (n : nat) (col : Column) (df : DataFrame) :
  (forall r, r ∈ df -> is_number (get col r)) ->
  nlargest n col df = Ok (take n (sort_desc (fun r => sort_key (get col r)) df)).
Proof. intros H. unfold nlargest. now rewrite numeric_dtype_numbers. Qed.

Lemma numbers_of_numbers {A} (f : A -> Q) (l : list A) :
  numbers (map (fun x => Num (f x)) l) = Some (map f l).
Proof. induction l as [|x l IH]; simpl; [trivial | now rewrite IH]. Qed.

Lemma mean_of_numbers {A} (f : A -> Q) (l : list A) :
  mean (map (fun x => Num (f x)) l) =
  Ok (match l with
      | [] => NA
      | _ => Num (Qsum (map f l) / inject_Z (Z.of_nat (length l)))
      end).
Proof.
  unfold mean. rewrite numbers_of_numbers.
  destruct l as [|x l]; [reflexivity|]. cbn [map]. now rewrite !length_cons, length_map.
Qed.

Lemma column_values (col : Column) (df : DataFrame) :
  (forall r, r ∈ df -> is_number (get col r)) ->
  column col df = map (fun r => Num (value_of (get col r))) df.
Proof.
  intros H. unfold column. apply map_ext_in. intros r Hr.
  apply list_elem_of_In in Hr. now destruct (H r Hr) as [q ->].
Qed.

Lemma astype_float_numbers (float_of_string : string -> option Q) {A}
    (f : A -> Q) (l : list A) :
  astype_float float_of_string (map (fun x => Num (f x)) l) =
  Ok (map (fun x => Num (f x)) l).
Proof. induction l as [|x l IH]; simpl; [trivial | now rewrite IH]. Qed.

(** What is left of the economy column once the zeros are replaced by
    missing values and dropped: the economies of the bowlers. *)
Lemma economy_of_bowlers (df : DataFrame) :
  (forall r, r ∈ df -> is_number (get Econ r)) ->
  dropna (map (replace_cell (Num 0) NA) (column Econ df)) =
  map (fun r => Num (economy r)) (bowlers df).
Proof.
  induction df as [|r df IH]; intros H; [reflexivity|].
  assert (Hr : is_number (get Econ r)) by (apply H; now left).
  assert (IH' : dropna (map (replace_cell (Num 0) NA) (column Econ df)) =
                map (fun r => Num (economy r)) (bowlers df)).
  { apply IH. intros r' Hr'. apply H. now right. }
  destruct Hr as [q Hq]. simpl in Hq.
  unfold bowlers, economy in *. cbn [column map List.filter get].
  rewrite Hq. cbn [value_of]. unfold replace_cell at 1. cbn [cell_eqb].
  destruct (Qeq_bool q 0) eqn:E; cbn [dropna List.filter is_na negb map].
  - exact IH'.
  - rewrite Hq. cbn [value_of]. f_equal. exact IH'.
Qed.

Lemma descending_of_sorted (col : Column) (l : DataFrame) :
  (forall r, r ∈ l -> is_number (get col r)) ->
  StronglySorted
    (fun a b => key_gtb (sort_key (get col b)) (sort_key (get col a)) = false) l ->
  descending col l.
Proof.
  intros Hn S i j a b Hij Hi Hj.
  pose proof (StronglySorted_lookup_lt _ l i j a b S Hij Hi Hj) as R.
  destruct (Hn a) as [p Hp]; [apply list_elem_of_lookup; eauto|].
  destruct (Hn b) as [q Hq]; [apply list_elem_of_lookup; eauto|].
  cbv beta in R. rewrite Hp, Hq in R. rewrite Hp, Hq. simpl in R |- *.
  apply negb_false_iff in R. now apply Qle_bool_iff.
Qed.

(** Rows that hold the same number in a column tie in the ranking. *)
Lemma tied_rows_tie (col : Column) (q : Q) (a b : Row) :
  cell_eqb (get col a) (Num q) = true ->
  cell_eqb (get col b) (Num q) = true ->
  key_gtb (sort_key (get col a)) (sort_key (get col b)) = false.
Proof.
  destruct (get col a) as [|s|p], (get col b) as [|t|r]; simpl; try discriminate.
  rewrite !Qeq_bool_iff, negb_false_iff, Qle_bool_iff.
  intros H1 H2. rewrite H1, H2. apply Qle_refl.
Qed.

(** The ranking behind a top-N view. *)
Lemma ranking_spec (col : Column) (df : DataFrame) :
  (forall r, r ∈ df -> is_number (get col r)) ->
  sort_desc (fun r => sort_key (get col r)) df ≡ₚ df /\
  descending col (sort_desc (fun r => sort_key (get col r)) df) /\
  ties_in_dataset_order col (sort_desc (fun r => sort_key (get col r)) df) df.
Proof.
  intros Hn. split; [apply sort_desc_perm|]. split.
  - apply descending_of_sorted; [|apply sort_desc_sorted].
    intros r Hr. apply Hn.
    now rewrite <- (sort_desc_perm (fun r => sort_key (get col r)) df).
  - intros q. apply sort_desc_stable. intros a b. apply tied_rows_tie.
Qed.

Lemma select_projection (metric : Column) (df : DataFrame) :
  body (select [Player; Team; metric] df) = projection metric df.
Proof. reflexivity. Qed.

Section AnalyzerClaims.

Variable float_of_string : string -> option Q.

Local Abbreviation analyze := (analyze_ipl float_of_string).
Local Abbreviation ranking := (fun col => sort_desc (fun r => sort_key (get col r))).

(** The Analyzer does not raise on a cleaned Dataset, and this is what it
    returns. *)
Lemma analyze_ipl_Cleaned (df : DataFrame) :
  Cleaned df ->
  analyze df =
  Ok (select [Player; Team; Runs] (take 10 (ranking Runs df)),
      select [Player; Team; Wickets] (take 10 (ranking Wickets df)),
      mkSummary
        (match df with
         | [] => NA
         | _ => Num (Qsum (map (fun r => value_of (r_bat_sr r)) df)
                     / inject_Z (Z.of_nat (length df)))
         end)
        (match bowlers df with
         | [] => NA
         | _ => Num (Qsum (map economy (bowlers df))
                     / inject_Z (Z.of_nat (length (bowlers df))))
         end)).
Proof.
  intros (_ & Hn & _).
  assert (N : forall col, col ∈ numeric_columns ->
                forall r, r ∈ df -> is_number (get col r)).
  { intros col Hc r Hr. now apply Hn. }
  unfold analyze_ipl.
  rewrite (nlargest_numbers 10 Runs df) by (apply N; unfold numeric_columns; rewrite !elem_of_cons; tauto).
  rewrite (nlargest_numbers 10 Wickets df) by (apply N; unfold numeric_columns; rewrite !elem_of_cons; tauto).
  rewrite (column_values Bat_SR df) by (apply N; unfold numeric_columns; rewrite !elem_of_cons; tauto).
  rewrite mean_of_numbers.
  rewrite economy_of_bowlers by (apply N; unfold numeric_columns; rewrite !elem_of_cons; tauto).
  rewrite astype_float_numbers, mean_of_numbers. reflexivity.
Qed.

(** C2.  For every cleaned Dataset, avg_bowling_economy is the mean of
    economy over exactly the Records whose economy is nonzero: their sum
    over their count, the zero-economy Records in neither; and when no
    Record has nonzero economy the Analyzer returns, and the average is
    missing (NaN), not 0. *)
Theorem analyze_ipl_avg_bowling_economy (df : DataFrame) :
  Cleaned df ->
  exists top_runs top_wickets summary,
    analyze df = Ok (top_runs, top_wickets, summary) /\
    (forall r, r ∈ bowlers df <-> r ∈ df /\ ~ (economy r == 0)%Q) /\
    (bowlers df <> [] ->
     Avg_Bowling_Econ summary =
     Num (Qsum (map economy (bowlers df)) / inject_Z (Z.of_nat (length (bowlers df))))) /\
    ((forall r, r ∈ df -> (economy r == 0)%Q) ->
     Avg_Bowling_Econ summary = NA /\ Avg_Bowling_Econ summary <> Num 0).
Proof.
  intros C. rewrite (analyze_ipl_Cleaned df C).
  do 3 eexists. split; [reflexivity|]. cbn [Avg_Bowling_Econ].
  assert (B : forall r, r ∈ bowlers df <-> r ∈ df /\ ~ (economy r == 0)%Q).
  { intros r. unfold bowlers. rewrite !list_elem_of_In, filter_In.
    rewrite negb_true_iff, <- not_true_iff_false, Qeq_bool_iff. reflexivity. }
  split; [exact B|]. split.
  - intros Hne. now destruct (bowlers df).
  - intros Hz. destruct (bowlers df) as [|r l] eqn:E; [split; [reflexivity | discriminate]|].
    exfalso. assert (Hr : r ∈ r :: l) by now left.
    apply B in Hr as [Hr Hnz]. apply Hnz. now apply Hz.
Qed.

(** C3.  For every cleaned Dataset (with at least one Record, or with
    none), the TopRunsView and, symmetrically, the TopWicketsView has
    length min(10, number of Records); it is the head of a ranking of all
    the Records that is sorted descending by the metric and keeps tied
    Records in dataset order; and it projects exactly name, team and the
    metric. *)
Theorem analyze_ipl_top_views (df : DataFrame) :
  Cleaned df ->
  exists top_runs top_wickets summary by_runs by_wickets,
    analyze df = Ok (top_runs, top_wickets, summary) /\
    (header top_runs = [Player; Team; Runs] /\
     body top_runs = projection Runs (take 10 by_runs) /\
     length (body top_runs) = Nat.min 10 (length df) /\
     by_runs ≡ₚ df /\ descending Runs by_runs /\
     ties_in_dataset_order Runs by_runs df) /\
    (header top_wickets = [Player; Team; Wickets] /\
     body top_wickets = projection Wickets (take 10 by_wickets) /\
     length (body top_wickets) = Nat.min 10 (length df) /\
     by_wickets ≡ₚ df /\ descending Wickets by_wickets /\
     ties_in_dataset_order Wickets by_wickets df).
Proof.
  intros C. rewrite (analyze_ipl_Cleaned df C). destruct C as (_ & Hn & _).
  eexists _, _, _, (ranking Runs df), (ranking Wickets df).
  split; [reflexivity|].
  assert (V : forall col, col ∈ numeric_columns ->
     header (select [Player; Team; col] (take 10 (ranking col df))) = [Player; Team; col] /\
     body (select [Player; Team; col] (take 10 (ranking col df))) =
       projection col (take 10 (ranking col df)) /\
     length (body (select [Player; Team; col] (take 10 (ranking col df)))) =
       Nat.min 10 (length df) /\
     ranking col df ≡ₚ df /\ descending col (ranking col df) /\
     ties_in_dataset_order col (ranking col df) df).
  { intros col Hc.
    destruct (ranking_spec col df) as (P & D & T).
    { intros r Hr. now apply Hn. }
    split; [reflexivity|]. split; [reflexivity|]. split; [|auto].
    rewrite select_projection. unfold projection.
    now rewrite length_map, length_take, P. }
  split; apply V; unfold numeric_columns; rewrite !elem_of_cons; tauto.
Qed.

(** C9.  For the empty cleaned Dataset the Analyzer does not raise: both
    views are empty and both averages are missing. *)
Theorem analyze_ipl_empty (parse_numeric : string -> option Q) :
  clean_ipl_data parse_numeric [] = [] /\
  analyze [] =
  Ok (mkTable [Player; Team; Runs] [],
      mkTable [Player; Team; Wickets] [],
      mkSummary NA NA).
Proof. split; reflexivity. Qed.

End AnalyzerClaims.

Lemma squad_Cleaned : Cleaned squad.
Proof. apply cleaning_invariant_Cleaned, squad_invariant. Qed.

Lemma analyze_ipl_avg_bowling_economy_witness :
  exists top_runs top_wickets summary,
    analyze_ipl parse_decimal squad = Ok (top_runs, top_wickets, summary) /\
    Avg_Bowling_Econ summary = Num (15 # 2).
Proof.
  destruct (analyze_ipl_avg_bowling_economy parse_decimal squad squad_Cleaned)
    as (tr & tw & s & E & _ & A & _).
  exists tr, tw, s. split; [exact E|]. apply A. discriminate.
Defined.

Lemma analyze_ipl_top_views_witness :
  exists top_runs top_wickets summary,
    analyze_ipl parse_decimal squad = Ok (top_runs, top_wickets, summary) /\
    length (body top_runs) = 2%nat /\ length (body top_wickets) = 2%nat.
Proof.
  destruct (analyze_ipl_top_views parse_decimal squad squad_Cleaned)
    as (tr & tw & s & br & bw & E & (_ & _ & L1 & _) & (_ & _ & L2 & _)).
  exists tr, tw, s. split; [exact E|]. split; [exact L1 | exact L2].
Defined.

(** The two-record example of the specification. *)
Example analyze_ipl_squad :
  analyze_ipl parse_decimal squad =
  Ok (mkTable [Player; Team; Runs]
        [ [Str "B"; Str "T1"; Num 80]; [Str "A"; Str "T1"; Num 50] ],
      mkTable [Player; Team; Wickets]
        [ [Str "B"; Str "T1"; Num 2]; [Str "A"; Str "T1"; Num 0] ],
      mkSummary (Num (255 # 2)) (Num (15 # 2))).
Proof. reflexivity. Qed.

(** Batters level on runs are ranked in dataset order. *)
Example analyze_ipl_ties :
  exists top_wickets summary,
    analyze_ipl parse_decimal level_on_runs =
    Ok (mkTable [Player; Team; Runs]
          [ [Str "R"; Str "T3"; Num 70]; [Str "P"; Str "T1"; Num 40];
            [Str "Q"; Str "T2"; Num 40]; [Str "S"; Str "T4"; Num 40] ],
        top_wickets, summary).
Proof. do 2 eexists. reflexivity. Qed.

(** ** Loader *)

Section LoaderClaims.

Variables read_excel read_csv : File -> option DataFrame.

Local Abbreviation load := (load_ipl_data read_excel read_csv).

Lemma load_ipl_data_missing (fs : gmap string File) (file_path : string) :
  fs !! file_path = None -> load file_path fs = (Raise FileNotFoundError, fs).
Proof.
  intros H. unfold load_ipl_data. rewrite bind_run. unfold os_path_exists.
  rewrite H. rewrite bool_decide_eq_false_2; [reflexivity|].
  intros [x Hx]. discriminate.
Qed.

Lemma load_ipl_data_present (fs : gmap string File) (file_path : string) (f : File) :
  fs !! file_path = Some f ->
  load file_path fs =
  (of_option ParseError
     (if endswith file_path ".xlsx" then read_excel f else read_csv f), fs).
Proof.
  intros H. unfold load_ipl_data. rewrite bind_run. unfold os_path_exists.
  rewrite H. rewrite bool_decide_eq_true_2 by eauto. cbn [negb].
  rewrite bind_run. unfold pd_read.
  destruct (endswith file_path ".xlsx"); rewrite H.
  - now destruct (read_excel f).
  - now destruct (read_csv f).
Qed.


End LoaderClaims.

Example endswith_xlsx :
  endswith "ipl_data.xlsx" ".xlsx" = true /\
  endswith "ipl_data.csv" ".xlsx" = false /\
  endswith "ipl_data.XLSX" ".xlsx" = false /\
  endswith "xlsx" ".xlsx" = false.
Proof. repeat split. Qed.

(** ** Paths *)

Lemma append_length (a b : string) :
  String.length (a +:+ b) = (String.length a + String.length b)%nat.
Proof. induction a as [|x a IH]; simpl; [trivial | now rewrite IH]. Qed.

(** Joining a directory and a relative name puts the same separator
    between them, whatever the name. *)
Lemma os_path_join_relative (dir : string) :
  exists sep, forall name,
    String.prefix "/" name = false -> os_path_join dir name = dir +:+ (sep +:+ name).
Proof.
  unfold os_path_join.
  destruct (String.eqb dir "" || endswith dir "/").
  - exists "". intros name ->. reflexivity.
  - exists "/". intros name ->. reflexivity.
Qed.

Lemma os_path_join_inj (dir a b : string) :
  String.prefix "/" a = false -> String.prefix "/" b = false ->
  os_path_join dir a = os_path_join dir b -> a = b.
Proof.
  destruct (os_path_join_relative dir) as [sep J].
  intros Ha Hb. rewrite (J a Ha), (J b Hb). intros E.
  apply String.app_inj in E. now apply String.app_inj in E.
Qed.

Lemma os_path_join_longer (dir name : string) :
  String.prefix "/" name = false -> name <> "" -> os_path_join dir name <> dir.
Proof.
  destruct (os_path_join_relative dir) as [sep J].
  intros Hn Hne. rewrite (J name Hn). intros E.
  apply (f_equal String.length) in E. rewrite !append_length in E.
  destruct name; [congruence | simpl in E; lia].
Qed.

(** ** Chart Renderer *)

Lemma savefig_cases (figure : option Image) (path : string) (fs : gmap string File) :
  (exists img, figure = Some img /\ fs !! path <> Some Directory /\
     savefig figure path fs = (Ok tt, <[path := Png img]> fs)) \/
  (exists e, savefig figure path fs = (Raise e, fs) /\
     (figure = None \/ fs !! path = Some Directory)).
Proof.
  destruct figure as [img|]; simpl.
  - unfold write_file. destruct (fs !! path) as [[| | |]|] eqn:E;
      try (left; exists img; repeat split; congruence).
    right. exists IsADirectoryError. split; [reflexivity | now right].
  - right. exists PlotError. split; [reflexivity | now left].
Qed.

Lemma os_makedirs_cases (dir : string) (fs : gmap string File) :
  (fs !! dir = None /\ os_makedirs dir fs = (Ok tt, <[dir := Directory]> fs)) \/
  (fs !! dir = Some Directory /\ os_makedirs dir fs = (Ok tt, fs)) \/
  (fs !! dir <> None /\ fs !! dir <> Some Directory /\
   os_makedirs dir fs = (Raise FileExistsError, fs)).
Proof.
  unfold os_makedirs. destruct (fs !! dir) as [[| | |]|] eqn:E; auto;
    right; right; repeat split; congruence.
Qed.

(** A run of [savefig] calls over pairwise different paths. *)
Lemma savefig_sequence (jobs : list (option Image * string))
    (fs fs' : gmap string File) (r : result unit) :
  NoDup (map snd jobs) ->
  for_each jobs (fun job => savefig (fst job) (snd job)) fs = (r, fs') ->
  (forall job, job ∈ jobs -> whole_or_untouched fs fs' (snd job) (fst job)) /\
  (forall p, p ∉ map snd jobs -> fs' !! p = fs !! p) /\
  (is_ok r = true <->
   forall job, job ∈ jobs -> is_Some (fst job) /\ fs !! snd job <> Some Directory) /\
  (is_ok r = true ->
   forall job, job ∈ jobs ->
     exists img, fst job = Some img /\ fs' !! snd job = Some (Png img)).
Proof.
  revert fs. induction jobs as [|[fig path] jobs IH]; intros fs ND Run.
  - injection Run as <- <-. split; [|split; [|split]].
    + intros job H. inversion H.
    + reflexivity.
    + split; [|reflexivity]. intros _ job H. inversion H.
    + intros _ job H. inversion H.
  - cbn [map snd] in ND. apply NoDup_cons in ND as [Hnew ND].
    cbn [for_each] in Run. rewrite bind_run in Run. cbn [fst snd] in Run.
    destruct (savefig_cases fig path fs) as [(img & -> & Hd & E)|(e & E & Hf)];
      rewrite E in Run.
    + destruct (IH _ ND Run) as (W & F & K & G).
      assert (Old : forall job, job ∈ jobs ->
                (<[path := Png img]> fs) !! snd job = fs !! snd job).
      { intros job Hj. apply lookup_insert_ne. intros ->. apply Hnew.
        apply list_elem_of_In, in_map, list_elem_of_In, Hj. }
      assert (Head : fs' !! path = Some (Png img)).
      { rewrite (F path Hnew). apply lookup_insert_eq. }
      split; [|split; [|split]].
      * intros job Hj. apply elem_of_cons in Hj as [->|Hj].
        -- right. exists img. split; [reflexivity | exact Head].
        -- destruct (W job Hj) as [U|U]; [left | right; exact U].
           now rewrite U, Old.
      * intros p Hp. cbn [map snd] in Hp. rewrite not_elem_of_cons in Hp.
        destruct Hp as [Hp1 Hp2]. rewrite (F p Hp2). now apply lookup_insert_ne.
      * rewrite K. split.
        -- intros H job Hj. apply elem_of_cons in Hj as [->|Hj].
           ++ split; [eauto | exact Hd].
           ++ rewrite <- (Old job Hj). now apply H.
        -- intros H job Hj. rewrite (Old job Hj). apply H. now right.
      * intros Hok job Hj. apply elem_of_cons in Hj as [->|Hj].
        -- exists img. split; [reflexivity | exact Head].
        -- now apply G.
    + injection Run as <- <-. split; [|split; [|split]].
      * intros job Hj. now left.
      * reflexivity.
      * split; [discriminate|]. intros H. exfalso.
        destruct (H (fig, path)) as [[img Hs] Hd]; [now left|]. cbn [fst snd] in *.
        destruct Hf as [Hf|Hf]; congruence.
      * discriminate.
Qed.

Lemma chart_paths_distinct (charts_dir : string) :
  NoDup (charts_dir :: map snd (chart_paths_of charts_dir)).
Proof.
  assert (J : forall a b, String.prefix "/" a = false -> String.prefix "/" b = false ->
                a <> b -> os_path_join charts_dir a <> os_path_join charts_dir b).
  { intros a b Ha Hb Hne E. apply Hne. eapply os_path_join_inj; eassumption. }
  assert (L : forall a, String.prefix "/" a = false -> a <> "" ->
                charts_dir <> os_path_join charts_dir a).
  { intros a Ha Hne E. symmetry in E. revert E. now apply os_path_join_longer. }
  unfold chart_paths_of. cbn [map snd].
  repeat (apply NoDup_cons; split); try (apply NoDup_nil; exact I);
    rewrite ?not_elem_of_cons; repeat split;
    try (apply not_elem_of_nil);
    try (apply L; [reflexivity | discriminate]);
    (apply J; [reflexivity | reflexivity | discriminate]).
Qed.

Section ChartRendererClaims.

Variable hist : string -> list Cell -> option Image.
Variable team_bar : string -> Column -> DataFrame -> option Image.

Local Abbreviation charts := (generate_charts hist team_bar).

(** The four [savefig] calls of [generate_charts], as (figure, path). *)
Local Abbreviation jobs_of df charts_dir :=
  [ (hist "Runs Distribution" (column Runs df),
     os_path_join charts_dir "runs_dist.png");
    (hist "Wickets Distribution" (column Wickets df),
     os_path_join charts_dir "wickets_dist.png");
    (team_bar "Total Runs by Team" Runs df,
     os_path_join charts_dir "team_runs.png");
    (team_bar "Total Wickets by Team" Wickets df,
     os_path_join charts_dir "team_wickets.png") ].

Lemma generate_charts_run (df : DataFrame) (charts_dir : string) (fs : gmap string File) :
  charts df charts_dir fs =
  match os_makedirs charts_dir fs with
  | (Ok _, fs1) =>
      match for_each (jobs_of df charts_dir)
              (fun job => savefig (fst job) (snd job)) fs1 with
      | (Ok _, fs2) => (Ok (chart_paths_of charts_dir), fs2)
      | (Raise e, fs2) => (Raise e, fs2)
      end
  | (Raise e, fs1) => (Raise e, fs1)
  end.
Proof.
  unfold generate_charts. rewrite bind_run.
  destruct (os_makedirs charts_dir fs) as [[[]|e] fs1]; [|reflexivity].
  cbn [for_each fst snd]. rewrite !bind_run.
  destruct (savefig _ (os_path_join charts_dir "runs_dist.png") fs1) as [[[]|e] fs2];
    [|reflexivity].
  rewrite !bind_run.
  destruct (savefig _ (os_path_join charts_dir "wickets_dist.png") fs2) as [[[]|e] fs3];
    [|reflexivity].
  rewrite !bind_run.
  destruct (savefig _ (os_path_join charts_dir "team_runs.png") fs3) as [[[]|e] fs4];
    [|reflexivity].
  rewrite !bind_run.
  destruct (savefig _ (os_path_join charts_dir "team_wickets.png") fs4) as [[[]|e] fs5];
    reflexivity.
Qed.

Local Ltac member := apply list_elem_of_In; simpl; eauto 10.

Lemma jobs_paths (df : DataFrame) (charts_dir : string) :
  map snd (jobs_of df charts_dir) = map snd (chart_paths_of charts_dir).
Proof. reflexivity. Qed.

(** A property of every (figure, path) job is a property of the returned
    mapping and the figures, side by side. *)
Lemma jobs_side_by_side (P : string -> option Image -> Prop)
    (df : DataFrame) (charts_dir : string) :
  (forall job, job ∈ jobs_of df charts_dir -> P (snd job) (fst job)) ->
  Forall2 (fun item figure => P (snd item) figure)
    (chart_paths_of charts_dir) (figures_of hist team_bar df).
Proof.
  intros H. unfold chart_paths_of, figures_of.
  repeat (constructor; [apply (H (_, _)); member|]). constructor.
Qed.

Lemma jobs_ready (fs : gmap string File) (df : DataFrame) (charts_dir : string) :
  (forall job, job ∈ jobs_of df charts_dir ->
     is_Some (fst job) /\ fs !! snd job <> Some Directory) <->
  (forall item, item ∈ chart_paths_of charts_dir -> fs !! snd item <> Some Directory) /\
  Forall is_Some (figures_of hist team_bar df).
Proof.
  split.
  - intros H. split.
    + intros item Hi. unfold chart_paths_of in Hi. rewrite !elem_of_cons in Hi.
      destruct Hi as [->|[->|[->|[->|Hi]]]]; [| | | |inversion Hi]; cbn [snd];
        eapply proj2, (H (_, _)); member.
    + unfold figures_of.
      repeat (constructor; [eapply proj1, (H (_, _)); member|]). constructor.
  - intros [Hp Hf] job Hj. unfold figures_of in Hf. rewrite !Forall_cons in Hf.
    destruct Hf as (F1 & F2 & F3 & F4 & _).
    rewrite !elem_of_cons in Hj.
    destruct Hj as [->|[->|[->|[->|Hj]]]]; [| | | |inversion Hj]; cbn [fst snd];
      (split; [assumption | eapply (Hp (_, _)); unfold chart_paths_of; member]).
Qed.

(** The renderer once its directory is there. *)
Lemma charts_written (df : DataFrame) (charts_dir : string)
    (fs fs1 fs2 : gmap string File) (r0 : result unit) :
  (fs !! charts_dir = None \/ fs !! charts_dir = Some Directory) ->
  (forall p, p <> charts_dir -> fs1 !! p = fs !! p) ->
  for_each (jobs_of df charts_dir) (fun job => savefig (fst job) (snd job)) fs1 = (r0, fs2) ->
  Forall2 (fun item figure => whole_or_untouched fs fs2 (snd item) figure)
    (chart_paths_of charts_dir) (figures_of hist team_bar df) /\
  (forall p, p <> charts_dir -> p ∉ map snd (chart_paths_of charts_dir) ->
     fs2 !! p = fs !! p) /\
  (is_ok r0 = true <->
   writable fs charts_dir /\ Forall is_Some (figures_of hist team_bar df)) /\
  (is_ok r0 = true ->
   Forall2 (fun item figure =>
              exists img, figure = Some img /\ fs2 !! snd item = Some (Png img))
     (chart_paths_of charts_dir) (figures_of hist team_bar df)).
Proof.
  intros Okdir Same Seq.
  pose proof (chart_paths_distinct charts_dir) as ND.
  apply NoDup_cons in ND as [Hdir ND]. rewrite <- (jobs_paths df) in Hdir, ND.
  destruct (savefig_sequence (jobs_of df charts_dir) fs1 fs2 r0 ND Seq) as (W & F & K & G).
  assert (Away : forall job, job ∈ jobs_of df charts_dir -> snd job <> charts_dir).
  { intros job Hj Eq. apply Hdir. rewrite <- Eq at 1.
    apply list_elem_of_In, in_map, list_elem_of_In, Hj. }
  split; [|split; [|split]].
  - apply (jobs_side_by_side (whole_or_untouched fs fs2)).
    intros job Hj. destruct (W job Hj) as [U|U]; [left | right; exact U].
    rewrite U. now apply Same, Away.
  - intros p Hp1 Hp2. rewrite (F p Hp2). now apply Same.
  - rewrite K. unfold writable. split.
    + intros H. destruct (proj1 (jobs_ready fs df charts_dir)) as [Hp Hf].
      { intros job Hj. rewrite <- (Same (snd job)) by now apply Away. now apply H. }
      split; [split; [exact Okdir | exact Hp] | exact Hf].
    + intros [[_ Hp] Hf] job Hj. rewrite Same by now apply Away.
      now apply (proj2 (jobs_ready fs df charts_dir) (conj Hp Hf)).
  - intros Hok.
    apply (jobs_side_by_side
             (fun p f => exists img, f = Some img /\ fs2 !! p = Some (Png img))).
    now apply G.
Qed.


End ChartRendererClaims.



(** With a back end whose bar charts refuse an empty frame, the call on
    the empty Dataset raises at the third chart: the two histograms are on
    disk in full, and the bar charts were never written. *)
Example generate_charts_stops_at_third :
  fst (generate_charts draw_hist strict_team_bar [] "charts" ∅) = Raise PlotError /\
  snd (generate_charts draw_hist strict_team_bar [] "charts" ∅) =
    <["charts/wickets_dist.png" := Png "hist:Wickets Distribution"]>
    (<["charts/runs_dist.png" := Png "hist:Runs Distribution"]>
    (<["charts" := Directory]> ∅)).
Proof. split; reflexivity. Qed.

(** ** Chart Embedder *)




Lemma add_images_nil (name : string) (wb : list Sheet) : add_images name [] wb = wb.
Proof.
  induction wb as [|ws wb IH]; simpl; [trivial|].
  destruct (String.eqb (title ws) name).
  - rewrite app_nil_r. now destruct ws.
  - now rewrite IH.
Qed.

Lemma add_images_add_image (name anchor : string) (img : Image)
    (extra : list (string * Image)) (wb : list Sheet) :
  add_images name extra (add_image name img anchor wb) =
  add_images name ((anchor, img) :: extra) wb.
Proof.
  induction wb as [|ws wb IH]; simpl; [trivial|].
  destruct (String.eqb (title ws) name) eqn:E; simpl; rewrite E.
  - now rewrite <- app_assoc.
  - now rewrite IH.
Qed.

(** A workbook without the sheet is left alone. *)
Lemma add_images_absent (name : string) (extra : list (string * Image)) (wb : list Sheet) :
  has_sheet name wb = false -> add_images name extra wb = wb.
Proof.
  unfold has_sheet, sheetnames. induction wb as [|ws wb IH]; simpl; [trivial|].
  rewrite orb_false_iff, String.eqb_sym. intros [-> H]. now rewrite IH.
Qed.

(** The images land on the first sheet of that name. *)
Lemma add_images_first (name : string) (extra : list (string * Image))
    (pre post : list Sheet) (ws : Sheet) :
  has_sheet name pre = false -> title ws = name ->
  add_images name extra (pre ++ ws :: post) =
  pre ++ mkSheet name (cells ws) (images ws ++ extra) :: post.
Proof.
  unfold has_sheet, sheetnames. induction pre as [|s pre IH]; simpl.
  - intros _ ->. now rewrite String.eqb_refl.
  - rewrite orb_false_iff, String.eqb_sym. intros [-> H] T. now rewrite IH.
Qed.

Lemma has_sheet_first (name : string) (wb : list Sheet) :
  has_sheet name wb = true ->
  exists pre ws post,
    wb = pre ++ ws :: post /\ title ws = name /\ has_sheet name pre = false.
Proof.
  unfold has_sheet, sheetnames. induction wb as [|s wb IH]; simpl; [discriminate|].
  destruct (String.eqb name (title s)) eqn:E; simpl.
  - intros _. exists [], s, wb. apply String.eqb_eq in E. auto.
  - intros H. destruct (IH H) as (pre & ws & post & -> & T & N).
    exists (s :: pre), ws, post. simpl. now rewrite E.
Qed.

Lemma place_charts_run (fs : gmap string File) (items : list (string * string))
    (imgs : list Image) (row : nat) (wb : list Sheet) :
  pictures_at fs items imgs ->
  place_charts items row wb fs = (Ok (add_images "Charts" (stacked row imgs) wb), fs).
Proof.
  intros P. revert row wb. induction P as [|[label path] img items imgs H P IH];
    intros row wb.
  - simpl. now rewrite add_images_nil.
  - cbn [place_charts]. rewrite bind_run. unfold XLImage at 1. cbn [snd] in H. rewrite H.
    rewrite IH. cbn [stacked]. now rewrite add_images_add_image.
Qed.




(** * Further properties *)

(** ** Player search *)

Lemma boolean_index_map {A} (p : A -> bool) (l : list A) :
  boolean_index l (map p l) = List.filter p l.
Proof.
  induction l as [|x l IH]; simpl; [trivial|]. rewrite IH. now destruct (p x).
Qed.

(** The first element that passes a test, by position. *)
Lemma head_filter_Some {A} (p : A -> bool) (l : list A) (x : A) :
  head (List.filter p l) = Some x <->
  exists before after,
    l = before ++ x :: after /\ p x = true /\ (forall y, y ∈ before -> p y = false).
Proof.
  induction l as [|y l IH]; simpl.
  - split; [discriminate|]. intros (before & after & E & _). now destruct before.
  - destruct (p y) eqn:Py; simpl.
    + split.
      * intros [= ->]. exists [], l. repeat split; trivial. intros z Hz. inversion Hz.
      * intros (before & after & E & Px & Hb). destruct before as [|z before].
        -- simpl in E. now injection E as ->.
        -- simpl in E. injection E as -> _. rewrite (Hb z) in Py by now left. discriminate.
    + rewrite IH. split.
      * intros (before & after & -> & Px & Hb). exists (y :: before), after.
        repeat split; trivial. intros z Hz. apply elem_of_cons in Hz as [->|Hz]; auto.
      * intros (before & after & E & Px & Hb). destruct before as [|z before].
        -- simpl in E. injection E as -> _. congruence.
        -- simpl in E. injection E as -> ->. exists before, after.
           repeat split; trivial. intros w Hw. apply Hb. now right.
Qed.

Lemma head_filter_None {A} (p : A -> bool) (l : list A) :
  head (List.filter p l) = None <-> forall y, y ∈ l -> p y = false.
Proof.
  induction l as [|y l IH]; simpl.
  - split; [|trivial]. intros _ z Hz. inversion Hz.
  - destruct (p y) eqn:Py; simpl.
    + split; [discriminate|]. intros H. rewrite (H y) in Py by now left. discriminate.
    + rewrite IH. split.
      * intros H z Hz. apply elem_of_cons in Hz as [->|Hz]; auto.
      * intros H z Hz. apply H. now right.
Qed.

Section SearchFacts.

Variables py_strip py_lower : string -> string.

Local Abbreviation search := (search_player py_strip py_lower).
Local Abbreviation hit := (answers py_strip py_lower).

(** A search that gets past its two guards returns the first record that
    answers the query. *)
Lemma search_player_first (df : DataFrame) (player_name : string) :
  py_strip player_name <> "" ->
  str_accessor_ok (column Player df) = true ->
  search df player_name = Return (head (List.filter (hit player_name) df)).
Proof.
  intros Hq Hs. unfold search_player.
  apply String.eqb_neq in Hq. rewrite Hq, Hs. cbn [negb].
  unfold column. rewrite !map_map.
  rewrite (map_ext _ (hit player_name)).
  - rewrite boolean_index_map. now destruct (List.filter _ df).
  - intros r. unfold answers. simpl. now destruct (r_player r).
Qed.

Lemma str_accessor_ok_text (df : DataFrame) (r : Row) (x : string) :
  r ∈ df -> r_player r = Str x -> str_accessor_ok (column Player df) = true.
Proof.
  intros Hin Hx. unfold str_accessor_ok.
  assert (E : existsb is_str (column Player df) = true).
  { apply existsb_exists. exists (Str x). split; [|reflexivity].
    apply in_map_iff. exists r. split; [exact Hx | now apply list_elem_of_In]. }
  now destruct (column Player df).
Qed.

(** X1.  A search with a non-blank query over a column of names the
    [.str] accessor accepts returns the first record, in dataset order,
    whose name is a text equal to the query once both are stripped and
    lowered, and returns None exactly when no record is. *)
Theorem search_player_first_match (df : DataFrame) (player_name : string) :
  py_strip player_name <> "" ->
  str_accessor_ok (column Player df) = true ->
  (forall r, search df player_name = Return (Some r) <->
     exists before after,
       df = before ++ r :: after /\ hit player_name r = true /\
       (forall r', r' ∈ before -> hit player_name r' = false)) /\
  (search df player_name = Return None <->
     forall r, r ∈ df -> hit player_name r = false).
Proof.
  intros Hq Hs. rewrite (search_player_first df player_name Hq Hs). split.
  - intros r. rewrite <- head_filter_Some. split; [now intros [= ->] | now intros ->].
  - rewrite <- head_filter_None. split; [now intros [= ->] | now intros ->].
Qed.

(** X2.  Searching for a name exactly as a record stores it never comes
    back empty-handed and never raises, provided the name is not blank:
    it returns a record whose name answers the query. *)
Theorem search_player_finds_stored (df : DataFrame) (r : Row) (name : string) :
  r ∈ df -> r_player r = Str name -> py_strip name <> "" ->
  exists r', search df name = Return (Some r') /\ r' ∈ df /\ hit name r' = true.
Proof.
  intros Hin Hx Hq.
  rewrite (search_player_first df name Hq (str_accessor_ok_text df r name Hin Hx)).
  destruct (head (List.filter (hit name) df)) as [r'|] eqn:E.
  - exists r'. split; [reflexivity|].
    apply head_filter_Some in E as (before & after & -> & Hr & _).
    split; [|exact Hr]. apply elem_of_app. right. now left.
  - exfalso. rewrite head_filter_None in E. specialize (E r Hin).
    unfold answers in E. rewrite Hx, String.eqb_refl in E. discriminate.
Qed.

(** X3.  A blank query returns None before the name column is looked at,
    whatever the frame; a non-blank query over a column of names that
    holds numbers and no text raises the AttributeError of [.str]. *)
Theorem search_player_guards (df : DataFrame) (player_name : string) :
  (py_strip player_name = "" -> search df player_name = Return None) /\
  (py_strip player_name <> "" ->
   existsb is_num (column Player df) = true ->
   existsb is_str (column Player df) = false ->
   search df player_name = AttributeError).
Proof.
  split.
  - intros E. unfold search_player. now rewrite E.
  - intros Hq Hn Hs. unfold search_player.
    apply String.eqb_neq in Hq. rewrite Hq. unfold str_accessor_ok.
    destruct (column Player df) as [|c s]; [discriminate|]. now rewrite Hs.
Qed.

End SearchFacts.

Lemma search_player_first_match_witness :
  search_player ascii_strip ascii_lower squad "  b " = Return (Some (player "B" "T1" 12 80 (135 # 1) 2 (15 # 2))).
Proof.
  apply (proj1 (search_player_first_match ascii_strip ascii_lower squad "  b "
                  ltac:(discriminate) eq_refl)).
  exists [player "A" "T1" 10 50 (120 # 1) 0 0], [].
  split; [reflexivity|]. split; [reflexivity|].
  intros r' Hr. apply list_elem_of_In in Hr. destruct Hr as [<-|[]]. reflexivity.
Defined.

Lemma search_player_finds_stored_witness :
  exists r', search_player ascii_strip ascii_lower squad "A" = Return (Some r') /\
             r' ∈ squad /\ answers ascii_strip ascii_lower "A" r' = true.
Proof.
  apply (search_player_finds_stored ascii_strip ascii_lower squad
           (player "A" "T1" 10 50 (120 # 1) 0 0) "A").
  - apply list_elem_of_In. simpl. auto.
  - reflexivity.
  - discriminate.
Defined.

Lemma search_player_guards_witness :
  search_player ascii_strip ascii_lower numbered_players "   " = Return None /\
  search_player ascii_strip ascii_lower numbered_players "7" = AttributeError.
Proof.
  split.
  - exact (proj1 (search_player_guards ascii_strip ascii_lower numbered_players "   ") eq_refl).
  - apply (proj2 (search_player_guards ascii_strip ascii_lower numbered_players "7"));
      [discriminate | reflexivity | reflexivity].
Defined.

(** ** More about the Cleaner *)

Lemma sublist_same_length {A} (l1 l2 : list A) :
  sublist l1 l2 -> length l1 = length l2 -> l1 = l2.
Proof.
  induction 1 as [|x l1 l2 S IH|x l1 l2 S IH]; simpl; intros E.
  - reflexivity.
  - f_equal. apply IH. lia.
  - apply sublist_length in S. lia.
Qed.

Section CleanerExtras.

Variable parse_numeric : string -> option Q.

Local Abbreviation normalize := (normalize_row parse_numeric).
Local Abbreviation clean := (clean_ipl_data parse_numeric).

Lemma clean_sublist (df : DataFrame) : sublist (clean df) (map normalize df).
Proof. rewrite clean_ipl_data_eq. apply ddf_sublist. Qed.

(** X4.  Cleaning never adds a row and never loses an identity: the
    output has at most as many Records as the input, each of them is the
    normalization of an input Record, and for every input Record some
    output Record carries its (name, team) identity as normalized. *)
Theorem clean_ipl_data_keeps_identities (df : DataFrame) :
  (length (clean df) <= length df)%nat /\
  (forall r', r' ∈ clean df -> exists r, r ∈ df /\ r' = normalize r) /\
  (forall r, r ∈ df ->
     exists r', r' ∈ clean df /\ same_identity (normalize r) r' = true).
Proof.
  split; [|split].
  - rewrite <- (length_map normalize df). apply sublist_length, clean_sublist.
  - intros r' Hr. rewrite clean_ipl_data_eq in Hr. apply ddf_elem in Hr as [Hr _].
    apply list_elem_of_In, in_map_iff in Hr as [r [<- Hr]].
    exists r. split; [now apply list_elem_of_In | reflexivity].
  - intros r Hr. rewrite clean_ipl_data_eq. unfold drop_duplicates.
    pose proof (ddf_covers [Player; Team] [] (map normalize df) (identity (normalize r))) as C.
    apply existsb_exists in C as [r' [Hr' S]]; [|  |reflexivity].
    + exists r'. split; [now apply list_elem_of_In | exact S].
    + apply existsb_exists. exists (normalize r). split.
      * apply in_map, list_elem_of_In, Hr.
      * apply key_eqb_refl.
Qed.

(** X5.  The Cleaner drops a Record exactly when identities collide: the
    row count is preserved if and only if the normalized Records have
    pairwise different (name, team) identities, and then the output is
    the normalized input, Record for Record. *)
Theorem clean_ipl_data_row_count (df : DataFrame) :
  (length (clean df) = length df <-> unique_identities (map normalize df)) /\
  (unique_identities (map normalize df) -> clean df = map normalize df).
Proof.
  assert (K : unique_identities (map normalize df) -> clean df = map normalize df).
  { intros U. rewrite clean_ipl_data_eq. now apply drop_duplicates_from_id. }
  split; [|exact K]. split.
  - intros E. rewrite <- (sublist_same_length (clean df) (map normalize df)).
    + apply clean_Cleaned.
    + apply clean_sublist.
    + now rewrite length_map.
  - intros U. now rewrite (K U), length_map.
Qed.

End CleanerExtras.

Lemma squad_unique : unique_identities (map (normalize_row parse_decimal) squad).
Proof.
  apply unique_identities_cons. split.
  - intros r' Hr. apply list_elem_of_In in Hr. destruct Hr as [<-|[]]. reflexivity.
  - apply unique_identities_cons. split; [|apply unique_identities_nil].
    intros r' Hr. inversion Hr.
Qed.

Lemma clean_ipl_data_row_count_witness :
  clean_ipl_data parse_decimal squad = map (normalize_row parse_decimal) squad.
Proof. exact (proj2 (clean_ipl_data_row_count parse_decimal squad) squad_unique). Defined.

(** ** More about the Analyzer *)

Lemma descending_dominates (col : Column) (ranked : DataFrame) (n : nat) (a b : Row) :
  descending col ranked -> a ∈ take n ranked -> b ∈ drop n ranked ->
  (value_of (get col b) <= value_of (get col a))%Q.
Proof.
  intros D Ha Hb. apply elem_of_take in Ha as (i & Hi & Lt).
  apply list_elem_of_lookup in Hb as [j Hj]. rewrite lookup_drop in Hj.
  apply (D i (n + j)%nat a b); [lia | exact Hi | exact Hj].
Qed.

Lemma descending_head (col : Column) (ranked : DataFrame) (a r : Row) :
  descending col ranked -> head ranked = Some a -> r ∈ ranked ->
  (value_of (get col r) <= value_of (get col a))%Q.
Proof.
  intros D Ha Hr. apply list_elem_of_lookup in Hr as [j Hj].
  destruct j as [|j].
  - rewrite <- head_lookup, Ha in Hj. injection Hj as ->. apply Qle_refl.
  - apply (D 0%nat (S j) a r); [lia | now rewrite <- head_lookup | exact Hj].
Qed.

Section AnalyzerExtras.

Variable float_of_string : string -> option Q.
Variable parse_numeric : string -> option Q.

Local Abbreviation analyze := (analyze_ipl float_of_string).
Local Abbreviation clean := (clean_ipl_data parse_numeric).
Local Abbreviation ranking := (fun col => sort_desc (fun r => sort_key (get col r))).

(** X6.  The Analyzer never raises on what the Cleaner returns, whatever
    the raw Dataset held (text in numeric columns, missing values,
    duplicates): it returns two views of min(10, n) rows, n the number of
    cleaned Records, and a summary. *)
Theorem analyze_ipl_after_clean (df : DataFrame) :
  exists top_runs top_wickets summary,
    analyze_ipl float_of_string (clean_ipl_data parse_numeric df) =
      Ok (top_runs, top_wickets, summary) /\
    length (body top_runs) = Nat.min 10 (length (clean_ipl_data parse_numeric df)) /\
    length (body top_wickets) = Nat.min 10 (length (clean_ipl_data parse_numeric df)) /\
    (length (body top_runs) <= length df)%nat.
Proof.
  pose proof (clean_Cleaned parse_numeric df) as C.
  rewrite (analyze_ipl_Cleaned float_of_string (clean df) C).
  do 3 eexists. split; [reflexivity|].
  assert (L : forall col,
            length (body (select [Player; Team; col] (take 10 (ranking col (clean df))))) =
            Nat.min 10 (length (clean df))).
  { intros col. rewrite select_projection. unfold projection.
    now rewrite length_map, length_take, (sort_desc_perm _ (clean df)). }
  rewrite !L. repeat split; trivial.
  pose proof (sublist_length _ _ (clean_sublist parse_numeric df)) as S.
  rewrite length_map in S. lia.
Qed.


(** X8.  For every cleaned Dataset the TopRunsView (and the
    TopWicketsView) holds the highest values: it is the head of a
    ranking of all the Records in which no Record left out of the view
    has more of the metric than a Record in it, and whose first Record
    has the maximum of the Dataset; with ten Records or fewer the view
    lists every Record. *)
Theorem analyze_ipl_top_dominates (df : DataFrame) :
  Cleaned df ->
  exists top_runs top_wickets summary,
    analyze df = Ok (top_runs, top_wickets, summary) /\
    holds_the_top Runs df top_runs /\
    holds_the_top Wickets df top_wickets.
Proof.
  intros C. rewrite (analyze_ipl_Cleaned float_of_string df C).
  do 3 eexists. split; [reflexivity|].
  destruct C as (_ & Hn & _).
  assert (V : forall col, col ∈ numeric_columns ->
     holds_the_top col df (select [Player; Team; col] (take 10 (ranking col df)))).
  { intros col Hc. exists (ranking col df).
    destruct (ranking_spec col df) as (P & D & _).
    { intros r Hr. now apply Hn. }
    split; [reflexivity|]. split; [now rewrite take_drop|]. split; [|split].
    - intros a b. now apply descending_dominates.
    - intros a r Ha Hr. apply (descending_head col (ranking col df)); trivial.
      now rewrite P.
    - intros L. rewrite take_ge; [exact P|]. now rewrite P. }
  split; apply V; unfold numeric_columns; rewrite !elem_of_cons; tauto.
Qed.

End AnalyzerExtras.


Lemma analyze_ipl_top_dominates_witness :
  exists top_runs top_wickets summary,
    analyze_ipl parse_decimal squad = Ok (top_runs, top_wickets, summary).
Proof.
  destruct (analyze_ipl_top_dominates parse_decimal squad squad_Cleaned)
    as (tr & tw & s & E & _).
  exists tr, tw, s. exact E.
Defined.

(** ** Report Writer and Chart Embedder *)

Lemma export_report_run (fs : gmap string File) (output_file : string)
    (top_runs top_wickets : Table) (summary : Summary) :
  export_report output_file top_runs top_wickets summary fs =
  match fs !! output_file with
  | Some Directory => (Raise IsADirectoryError, fs)
  | _ => (Ok tt, <[output_file := Xlsx (report_sheets top_runs top_wickets summary)]> fs)
  end.
Proof. reflexivity. Qed.

Lemma report_sheets_no_charts (top_runs top_wickets : Table) (summary : Summary) :
  has_sheet "Charts" (report_sheets top_runs top_wickets summary) = false.
Proof. reflexivity. Qed.

Lemma pictures_at_other (fs : gmap string File) (items : list (string * string))
    (imgs : list Image) (path : string) (f : File) :
  pictures_at fs items imgs -> path ∉ map snd items ->
  pictures_at (<[path := f]> fs) items imgs.
Proof.
  intros P. induction P as [|item img items imgs H P IH]; intros N; [constructor|].
  cbn [map] in N. apply not_elem_of_cons in N as [N1 N2]. constructor.
  - rewrite lookup_insert_ne; [exact H | congruence].
  - now apply IH.
Qed.


(** The loop of the Embedder reads and never writes: it ends in the
    extended workbook when every path holds a picture and raises
    otherwise. *)
Lemma place_charts_cases (fs : gmap string File) (items : list (string * string))
    (row : nat) (wb : list Sheet) :
  (exists imgs, pictures_at fs items imgs /\
     place_charts items row wb fs = (Ok (add_images "Charts" (stacked row imgs) wb), fs)) \/
  ((forall imgs, ~ pictures_at fs items imgs) /\
   exists e, place_charts items row wb fs = (Raise e, fs)).
Proof.
  revert row wb. induction items as [|[label path] items IH]; intros row wb.
  - left. exists []. split; [constructor|]. simpl. now rewrite add_images_nil.
  - cbn [place_charts]. rewrite !bind_run. unfold XLImage.
    assert (Bad : (forall img, fs !! path <> Some (Png img)) ->
                  forall imgs, ~ pictures_at fs ((label, path) :: items) imgs).
    { intros B imgs P. inversion P as [|item img its ims H P']; subst.
      now apply (B img). }
    destruct (fs !! path) as [[|content|img|wb']|] eqn:E.
    + right. split; [apply Bad; congruence | eexists; reflexivity].
    + right. split; [apply Bad; congruence | eexists; reflexivity].
    + destruct (IH (row + 25)%nat (add_image "Charts" img (anchor_at row) wb))
        as [(imgs & P & R)|(N & e & R)].
      * left. exists (img :: imgs). split; [now constructor|].
        rewrite R. cbn [stacked]. now rewrite add_images_add_image.
      * right. split; [|exists e; exact R].
        intros imgs P. inversion P as [|item img' its ims H P']; subst.
        now apply (N ims).
    + right. split; [apply Bad; congruence | eexists; reflexivity].
    + right. split; [apply Bad; congruence | eexists; reflexivity].
Qed.





Lemma embed_charts_run (fs : gmap string File) (excel_file : string)
    (chart_paths : list (string * string)) :
  embed_charts excel_file chart_paths fs =
  match fs !! excel_file with
  | Some (Xlsx wb) =>
      match place_charts chart_paths 1
              (if negb (has_sheet "Charts" wb) then create_sheet "Charts" wb else wb) fs with
      | (Ok wb', fs') => write_file excel_file (Xlsx wb') fs'
      | (Raise e, fs') => (Raise e, fs')
      end
  | Some _ => (Raise ParseError, fs)
  | None => (Raise FileNotFoundError, fs)
  end.
Proof.
  unfold embed_charts. rewrite bind_run. unfold load_workbook.
  destruct (fs !! excel_file) as [[|content|img|wb]|]; try reflexivity.
Qed.

(** What a run of the Embedder comes to. *)
Lemma embed_charts_cases (fs : gmap string File) (excel_file : string)
    (chart_paths : list (string * string)) :
  (exists wb imgs,
     fs !! excel_file = Some (Xlsx wb) /\ pictures_at fs chart_paths imgs /\
     embed_charts excel_file chart_paths fs =
     (Ok tt,
      <[excel_file :=
          Xlsx (add_images "Charts" (stacked 1 imgs)
                  (if negb (has_sheet "Charts" wb)
                   then create_sheet "Charts" wb else wb))]> fs)) \/
  (((forall wb, fs !! excel_file <> Some (Xlsx wb)) \/
    (forall imgs, ~ pictures_at fs chart_paths imgs)) /\
   exists e, embed_charts excel_file chart_paths fs = (Raise e, fs)).
Proof.
  rewrite embed_charts_run.
  destruct (fs !! excel_file) as [[|content|img|wb]|] eqn:E;
    try (right; split; [left; intros wb0; congruence | eexists; reflexivity]).
  destruct (place_charts_cases fs chart_paths 1
              (if negb (has_sheet "Charts" wb) then create_sheet "Charts" wb else wb))
    as [(imgs & P & R)|(N & e & R)]; rewrite R.
  - left. exists wb, imgs. split; [reflexivity|]. split; [exact P|].
    unfold write_file. now rewrite E.
  - right. split; [now right | exists e; reflexivity].
Qed.









(** ** More about the Chart Renderer *)

Lemma savefig_same (img : Image) (path : string) (fs : gmap string File) :
  fs !! path = Some (Png img) -> savefig (Some img) path fs = (Ok tt, fs).
Proof.
  intros H. unfold savefig, write_file. rewrite H. now rewrite insert_id.
Qed.

(** Saving figures over files that already hold them changes nothing. *)
Lemma savefig_sequence_same (jobs : list (option Image * string)) (fs : gmap string File) :
  (forall job, job ∈ jobs ->
     exists img, fst job = Some img /\ fs !! snd job = Some (Png img)) ->
  for_each jobs (fun job => savefig (fst job) (snd job)) fs = (Ok tt, fs).
Proof.
  induction jobs as [|[fig path] jobs IH]; intros H; [reflexivity|].
  cbn [for_each]. rewrite bind_run.
  destruct (H (fig, path)) as (img & E1 & E2); [now left|]. cbn [fst snd] in *.
  rewrite E1, (savefig_same img path fs E2). apply IH.
  intros job Hj. apply H. now right.
Qed.

Lemma Forall2_drawn (fs : gmap string File) (paths : list (string * string))
    (figures : list (option Image)) (imgs : list Image) :
  Forall2 (fun item figure => exists img, figure = Some img /\ fs !! snd item = Some (Png img))
    paths figures ->
  Forall2 (fun figure img => figure = Some img) figures imgs ->
  pictures_at fs paths imgs.
Proof.
  intros F. revert imgs. induction F as [|item fig paths figures (img & -> & H) F IH];
    intros imgs D; inversion D as [|f i fs' is' E D']; subst; [constructor|].
  injection E as <-. constructor; [exact H | now apply IH].
Qed.

Lemma Forall2_is_Some (figures : list (option Image)) (imgs : list Image) :
  Forall2 (fun figure img => figure = Some img) figures imgs -> Forall is_Some figures.
Proof. induction 1; constructor; eauto. Qed.

Section ChartRendererExtras.

Variable hist : string -> list Cell -> option Image.
Variable team_bar : string -> Column -> DataFrame -> option Image.

Local Abbreviation charts := (generate_charts hist team_bar).

Local Abbreviation jobs_of df charts_dir :=
  [ (hist "Runs Distribution" (column Runs df),
     os_path_join charts_dir "runs_dist.png");
    (hist "Wickets Distribution" (column Wickets df),
     os_path_join charts_dir "wickets_dist.png");
    (team_bar "Total Runs by Team" Runs df,
     os_path_join charts_dir "team_runs.png");
    (team_bar "Total Wickets by Team" Wickets df,
     os_path_join charts_dir "team_wickets.png") ].

(** Every outcome of the Chart Renderer, in one place. *)
Lemma generate_charts_outcome (df : DataFrame) (charts_dir : string)
    (fs : gmap string File) :
  exists r fs',
    charts df charts_dir fs = (r, fs') /\
    (is_ok r = true <->
     writable fs charts_dir /\ Forall is_Some (figures_of hist team_bar df)) /\
    (is_ok r = true ->
     r = Ok (chart_paths_of charts_dir) /\
     fs' !! charts_dir = Some Directory /\
     (forall job, job ∈ jobs_of df charts_dir ->
        exists img, fst job = Some img /\ fs' !! snd job = Some (Png img)) /\
     Forall2 (fun item figure =>
                exists img, figure = Some img /\ fs' !! snd item = Some (Png img))
       (chart_paths_of charts_dir) (figures_of hist team_bar df)) /\
    (forall p, p <> charts_dir -> p ∉ map snd (chart_paths_of charts_dir) ->
       fs' !! p = fs !! p).
Proof.
  rewrite generate_charts_run.
  pose proof (chart_paths_distinct charts_dir) as ND.
  apply NoDup_cons in ND as [Hdir ND].
  assert (Go : forall fs1,
            (fs !! charts_dir = None \/ fs !! charts_dir = Some Directory) ->
            fs1 !! charts_dir = Some Directory ->
            (forall p, p <> charts_dir -> fs1 !! p = fs !! p) ->
            exists r fs',
              match for_each (jobs_of df charts_dir)
                      (fun job => savefig (fst job) (snd job)) fs1 with
              | (Ok _, fs2) => (Ok (chart_paths_of charts_dir), fs2)
              | (Raise e, fs2) => (Raise e, fs2)
              end = (r, fs') /\
              (is_ok r = true <->
               writable fs charts_dir /\ Forall is_Some (figures_of hist team_bar df)) /\
              (is_ok r = true ->
               r = Ok (chart_paths_of charts_dir) /\
               fs' !! charts_dir = Some Directory /\
               (forall job, job ∈ jobs_of df charts_dir ->
                  exists img, fst job = Some img /\ fs' !! snd job = Some (Png img)) /\
               Forall2 (fun item figure =>
                          exists img, figure = Some img /\ fs' !! snd item = Some (Png img))
                 (chart_paths_of charts_dir) (figures_of hist team_bar df)) /\
              (forall p, p <> charts_dir -> p ∉ map snd (chart_paths_of charts_dir) ->
                 fs' !! p = fs !! p)).
  { intros fs1 Okdir D1 Same.
    destruct (for_each (jobs_of df charts_dir) _ fs1) as [r0 fs2] eqn:Seq.
    destruct (charts_written hist team_bar df charts_dir fs fs1 fs2 r0 Okdir Same Seq)
      as (_ & F & K & G).
    destruct (savefig_sequence (jobs_of df charts_dir) fs1 fs2 r0 ND Seq)
      as (_ & F0 & _ & G0).
    destruct r0 as [[]|e]; eexists _, fs2; (split; [reflexivity|]);
      cbn [is_ok] in *; (split; [exact K|]); (split; [|exact F]).
    - intros _. split; [reflexivity|]. split; [|split; [now apply G0 | now apply G]].
      now rewrite (F0 charts_dir Hdir).
    - discriminate. }
  destruct (os_makedirs_cases charts_dir fs)
    as [[Hd E]|[[Hd E]|(Hd1 & Hd2 & E)]]; rewrite E.
  - apply Go; [now left | apply lookup_insert_eq|].
    intros p Hp. now apply lookup_insert_ne.
  - apply Go; [now right | exact Hd | reflexivity].
  - eexists _, fs. split; [reflexivity|]. cbn [is_ok]. split; [|split].
    + split; [discriminate|]. intros [[[W|W] _] _]; congruence.
    + discriminate.
    + reflexivity.
Qed.

(** X13.  Re-running the Chart Renderer regenerates the same files: a
    run that follows a successful run on the same Dataset and directory
    succeeds, returns the same mapping and leaves the disk exactly as the
    first run left it. *)
Theorem generate_charts_rerun (df : DataFrame) (charts_dir : string)
    (fs fs' : gmap string File) (paths : list (string * string)) :
  charts df charts_dir fs = (Ok paths, fs') ->
  charts df charts_dir fs' = (Ok paths, fs').
Proof.
  intros Run.
  destruct (generate_charts_outcome df charts_dir fs) as (r & fs1 & E & _ & S & _).
  rewrite E in Run. injection Run as -> ->.
  destruct (S eq_refl) as (Hp & D & J & _). injection Hp as Hp. subst paths.
  rewrite generate_charts_run. unfold os_makedirs. rewrite D.
  now rewrite (savefig_sequence_same (jobs_of df charts_dir) fs' J).
Qed.


End ChartRendererExtras.

Lemma generate_charts_rerun_witness :
  generate_charts draw_hist draw_team_bar squad "charts"
    (snd (generate_charts draw_hist draw_team_bar squad "charts" ∅)) =
  (Ok chart_mapping, snd (generate_charts draw_hist draw_team_bar squad "charts" ∅)).
Proof.
  apply (generate_charts_rerun draw_hist draw_team_bar squad "charts" ∅).
  vm_compute. reflexivity.
Defined.


(** ** Orchestration *)

Lemma main_outputs_paths :
  main_outputs =
  [ "ipl_analysis_report.xlsx"; "charts"; "charts/runs_dist.png";
    "charts/wickets_dist.png"; "charts/team_runs.png"; "charts/team_wickets.png" ].
Proof. reflexivity. Qed.

Lemma report_not_a_chart :
  "ipl_analysis_report.xlsx" <> "charts" /\
  "ipl_analysis_report.xlsx" ∉ map snd (chart_paths_of "charts").
Proof.
  split; [discriminate|]. intros H. apply list_elem_of_In in H. simpl in H.
  repeat (destruct H as [H|H]; [discriminate H|]). exact H.
Qed.

(** Writing the report does not change whether the charts can be
    written. *)
Lemma writable_after_report (fs : gmap string File) (f : File) :
  writable (<["ipl_analysis_report.xlsx" := f]> fs) "charts" <-> writable fs "charts".
Proof.
  destruct report_not_a_chart as [N1 N2]. unfold writable.
  rewrite lookup_insert_ne by exact N1.
  split; intros [D H]; (split; [exact D|]); intros item Hi;
    specialize (H item Hi).
  - rewrite lookup_insert_ne in H; [exact H|]. intros E. apply N2. rewrite E.
    apply list_elem_of_In, in_map, list_elem_of_In, Hi.
  - rewrite lookup_insert_ne; [exact H|]. intros E. apply N2. rewrite E.
    apply list_elem_of_In, in_map, list_elem_of_In, Hi.
Qed.

Section OrchestrationFacts.

Variables read_excel read_csv : File -> option DataFrame.
Variable parse_numeric : string -> option Q.
Variable float_of_string : string -> option Q.
Variable hist : string -> list Cell -> option Image.
Variable team_bar : string -> Column -> DataFrame -> option Image.

Local Abbreviation run_main :=
  (main read_excel read_csv parse_numeric float_of_string hist team_bar).
Local Abbreviation clean := (clean_ipl_data parse_numeric).
Local Abbreviation analyze := (analyze_ipl float_of_string).
Local Abbreviation charts := (generate_charts hist team_bar).
Local Abbreviation report := "ipl_analysis_report.xlsx".

(** [main], stage by stage. *)
Lemma main_run (fs : gmap string File) :
  run_main fs =
  match load_ipl_data read_excel read_csv "ipl_data.xlsx" fs with
  | (Raise e, fs0) => (Raise e, fs0)
  | (Ok raw, fs0) =>
      match analyze (clean raw) with
      | Raise e => (Raise e, fs0)
      | Ok analysis =>
          match export_report report (fst (fst analysis)) (snd (fst analysis))
                  (snd analysis) fs0 with
          | (Raise e, fs1) => (Raise e, fs1)
          | (Ok _, fs1) =>
              match charts (clean raw) "charts" fs1 with
              | (Raise e, fs2) => (Raise e, fs2)
              | (Ok chart_paths, fs2) =>
                  match embed_charts report chart_paths fs2 with
                  | (Raise e, fs3) => (Raise e, fs3)
                  | (Ok _, fs3) =>
                      (Ok (fst (fst analysis), snd (fst analysis), snd analysis, report), fs3)
                  end
              end
          end
      end
  end.
Proof.
  unfold main. rewrite bind_run.
  destruct (load_ipl_data _ _ _ fs) as [[raw|e] fs0]; [|reflexivity].
  rewrite bind_run. unfold lift at 1.
  destruct (analyze (clean raw)) as [analysis|e]; [|reflexivity].
  rewrite bind_run.
  destruct (export_report _ _ _ _ fs0) as [[[]|e] fs1]; [|reflexivity].
  rewrite bind_run.
  destruct (charts (clean raw) "charts" fs1) as [[chart_paths|e] fs2]; [|reflexivity].
  rewrite bind_run.
  destruct (embed_charts _ chart_paths fs2) as [[[]|e] fs3]; reflexivity.
Qed.

Lemma load_source (fs : gmap string File) (f : File) :
  fs !! "ipl_data.xlsx" = Some f ->
  load_ipl_data read_excel read_csv "ipl_data.xlsx" fs =
  (of_option ParseError (read_excel f), fs).
Proof. intros H. now rewrite (load_ipl_data_present _ _ fs "ipl_data.xlsx" f H). Qed.

Lemma analyze_clean (raw : DataFrame) :
  exists analysis, analyze (clean raw) = Ok analysis.
Proof.
  rewrite (analyze_ipl_Cleaned float_of_string _ (clean_Cleaned parse_numeric raw)).
  eexists. reflexivity.
Qed.

(** X15.  Without the source file, [main] stops at the Loader with the
    not-found error and has written nothing; with a source file the
    reader cannot parse it stops there too, again with the disk as it
    was. *)
Theorem main_needs_source (fs : gmap string File) :
  (fs !! "ipl_data.xlsx" = None -> run_main fs = (Raise FileNotFoundError, fs)) /\
  (forall f, fs !! "ipl_data.xlsx" = Some f -> read_excel f = None ->
     run_main fs = (Raise ParseError, fs)).
Proof.
  split.
  - intros H. rewrite main_run.
    now rewrite (load_ipl_data_missing read_excel read_csv fs "ipl_data.xlsx" H).
  - intros f H R. rewrite main_run, (load_source fs f H), R. reflexivity.
Qed.

(** X16.  A full run of [main]: when the source workbook is read, the
    report path and the chart paths are free to write and the back end
    draws the four figures of the cleaned Dataset, [main] returns the
    analysis of the cleaned Dataset, the report holds the three analysis
    sheets followed by a Charts sheet with the four figures stacked at
    A1, A26, A51, A76, the four chart files hold the figures, and the
    source file is untouched. *)
Theorem main_completes (fs : gmap string File) (f : File) (raw : DataFrame)
    (imgs : list Image) :
  fs !! "ipl_data.xlsx" = Some f ->
  read_excel f = Some raw ->
  fs !! report <> Some Directory ->
  writable fs "charts" ->
  Forall2 (fun figure img => figure = Some img)
    (figures_of hist team_bar (clean raw)) imgs ->
  exists top_runs top_wickets summary fs',
    analyze (clean raw) = Ok (top_runs, top_wickets, summary) /\
    run_main fs = (Ok (top_runs, top_wickets, summary, report), fs') /\
    fs' !! report =
      Some (Xlsx (report_sheets top_runs top_wickets summary
                  ++ [mkSheet "Charts" [] (stacked 1 imgs)])) /\
    pictures_at fs' (chart_paths_of "charts") imgs /\
    map fst (stacked 1 imgs) = take (length imgs) ["A1"; "A26"; "A51"; "A76"] /\
    fs' !! "ipl_data.xlsx" = Some f.
Proof.
  intros Hsrc Hread Hrep W D.
  destruct (analyze_clean raw) as [[[tr tw] s] A].
  exists tr, tw, s. rewrite main_run, (load_source fs f Hsrc), Hread.
  cbn [of_option]. rewrite A. cbn [fst snd]. rewrite export_report_run.
  set (fs1 := <[report := Xlsx (report_sheets tr tw s)]> fs).
  assert (E1 : match fs !! report with
               | Some Directory => (Raise IsADirectoryError, fs)
               | _ => (Ok tt, fs1)
               end = (Ok tt, fs1)).
  { destruct (fs !! report) as [[| | |]|]; trivial. congruence. }
  rewrite E1. clear E1.
  destruct report_not_a_chart as [N1 N2].
  destruct (generate_charts_outcome hist team_bar (clean raw) "charts" fs1)
    as (r & fs2 & E & K & S & F).
  assert (Hok : is_ok r = true).
  { apply K. split; [now apply writable_after_report | eapply Forall2_is_Some, D]. }
  destruct (S Hok) as (-> & _ & _ & G). rewrite E.
  pose proof (Forall2_drawn fs2 _ _ imgs G D) as P.
  assert (Hwb : fs2 !! report = Some (Xlsx (report_sheets tr tw s))).
  { rewrite F; [apply lookup_insert_eq | exact N1 | exact N2]. }
  rewrite embed_charts_run, Hwb.
  rewrite (place_charts_run fs2 _ imgs) by exact P.
  unfold write_file. rewrite Hwb.
  eexists. split; [reflexivity|]. split; [reflexivity|].
  split; [|split; [|split]].
  - rewrite lookup_insert_eq, report_sheets_no_charts. cbn [negb]. unfold create_sheet.
    rewrite (add_images_first "Charts" _ _ [] (mkSheet "Charts" [] []));
      [reflexivity | apply report_sheets_no_charts | reflexivity].
  - now apply pictures_at_other.
  - apply Forall2_length in D. cbn [figures_of length] in D.
    destruct imgs as [|i1 [|i2 [|i3 [|i4 [|i5 imgs]]]]]; try discriminate D. reflexivity.
  - rewrite lookup_insert_ne by discriminate.
    rewrite F.
    + unfold fs1. rewrite lookup_insert_ne by discriminate. exact Hsrc.
    + discriminate.
    + intros H. apply list_elem_of_In in H. simpl in H.
      repeat (destruct H as [H|H]; [discriminate H|]). exact H.
Qed.

(** The disk after a run of [main] differs from the disk before it at
    most at the output paths. *)
Lemma main_frame (fs : gmap string File) (p : string) :
  p ∉ main_outputs -> snd (run_main fs) !! p = fs !! p.
Proof.
  intros Hp. unfold main_outputs in Hp.
  apply not_elem_of_cons in Hp as [P1 Hp]. apply not_elem_of_cons in Hp as [P2 P3].
  rewrite main_run.
  destruct (fs !! "ipl_data.xlsx") as [f|] eqn:Hsrc.
  2:{ now rewrite (load_ipl_data_missing read_excel read_csv fs "ipl_data.xlsx" Hsrc). }
  rewrite (load_source fs f Hsrc).
  destruct (read_excel f) as [raw|]; [|reflexivity]. cbn [of_option].
  destruct (analyze_clean raw) as [analysis A]. rewrite A, export_report_run.
  destruct (fs !! report) as [[|content0|img0|wb0]|] eqn:Hrep; try reflexivity.
  all: match goal with
       | |- context [charts ?d ?c ?s] =>
           destruct (generate_charts_outcome hist team_bar d c s)
             as (r & fs2 & E & _ & _ & F); rewrite E
       end.
  all: destruct r as [chart_paths|e]; cbn [snd];
       [destruct (embed_charts_cases fs2 report chart_paths)
          as [(wb & imgs & _ & _ & R)|(_ & e & R)]; rewrite R; cbn [snd];
        rewrite ?lookup_insert_ne by congruence|];
       rewrite (F p P2 P3); now apply lookup_insert_ne.
Qed.

(** X17.  Whatever happens, [main] leaves the source file as it was, and
    changes no file other than the report, the charts directory and the
    four chart files. *)
Theorem main_touches_outputs_only (fs : gmap string File) :
  snd (run_main fs) !! "ipl_data.xlsx" = fs !! "ipl_data.xlsx" /\
  (forall p, p ∉ main_outputs -> snd (run_main fs) !! p = fs !! p) /\
  main_outputs =
    [ "ipl_analysis_report.xlsx"; "charts"; "charts/runs_dist.png";
      "charts/wickets_dist.png"; "charts/team_runs.png"; "charts/team_wickets.png" ].
Proof.
  split; [|split; [apply main_frame | reflexivity]].
  apply main_frame. rewrite main_outputs_paths. intros H.
  apply list_elem_of_In in H. simpl in H.
  repeat (destruct H as [H|H]; [discriminate H|]). exact H.
Qed.

(** X18.  The report is written before the charts are drawn: when the
    source is read and the report path is free, but the charts cannot be
    produced (the directory cannot be made, a chart path is a directory,
    or the back end fails on a figure), [main] raises and leaves behind a
    report with the three analysis sheets and no Charts sheet. *)
Theorem main_fails_after_report (fs : gmap string File) (f : File) (raw : DataFrame) :
  fs !! "ipl_data.xlsx" = Some f ->
  read_excel f = Some raw ->
  fs !! report <> Some Directory ->
  ~ (writable fs "charts" /\ Forall is_Some (figures_of hist team_bar (clean raw))) ->
  exists e top_runs top_wickets summary fs',
    analyze (clean raw) = Ok (top_runs, top_wickets, summary) /\
    run_main fs = (Raise e, fs') /\
    fs' !! report = Some (Xlsx (report_sheets top_runs top_wickets summary)) /\
    has_sheet "Charts" (report_sheets top_runs top_wickets summary) = false.
Proof.
  intros Hsrc Hread Hrep N.
  destruct (analyze_clean raw) as [[[tr tw] s] A].
  rewrite main_run, (load_source fs f Hsrc), Hread.
  cbn [of_option]. rewrite A. cbn [fst snd]. rewrite export_report_run.
  set (fs1 := <[report := Xlsx (report_sheets tr tw s)]> fs).
  assert (E1 : match fs !! report with
               | Some Directory => (Raise IsADirectoryError, fs)
               | _ => (Ok tt, fs1)
               end = (Ok tt, fs1)).
  { destruct (fs !! report) as [[| | |]|]; trivial. congruence. }
  rewrite E1. clear E1.
  destruct report_not_a_chart as [N1 N2].
  destruct (generate_charts_outcome hist team_bar (clean raw) "charts" fs1)
    as (r & fs2 & E & K & _ & F).
  rewrite E. destruct r as [chart_paths|e].
  - exfalso. apply N. destruct (proj1 K eq_refl) as [W Fs].
    split; [now apply (writable_after_report fs (Xlsx (report_sheets tr tw s))) | exact Fs].
  - exists e, tr, tw, s, fs2. split; [reflexivity|]. split; [reflexivity|].
    split; [|reflexivity].
    rewrite F; [apply lookup_insert_eq | exact N1 | exact N2].
Qed.

End OrchestrationFacts.

Lemma source_disk_writable : writable source_disk "charts".
Proof.
  split; [now left|]. intros item Hi. apply list_elem_of_In in Hi. simpl in Hi.
  repeat (destruct Hi as [<-|Hi]; [discriminate|]). destruct Hi.
Qed.

Lemma main_needs_source_witness :
  main read_squad read_squad parse_decimal parse_decimal draw_hist draw_team_bar ∅ =
  (Raise FileNotFoundError, ∅).
Proof.
  exact (proj1 (main_needs_source read_squad read_squad parse_decimal parse_decimal
                  draw_hist draw_team_bar ∅) eq_refl).
Defined.

Lemma main_completes_witness :
  exists top_runs top_wickets summary fs',
    main read_squad read_squad parse_decimal parse_decimal draw_hist draw_team_bar
      source_disk =
      (Ok (top_runs, top_wickets, summary, "ipl_analysis_report.xlsx"), fs') /\
    pictures_at fs' (chart_paths_of "charts")
      [ "hist:Runs Distribution"; "hist:Wickets Distribution";
        "bar:Total Runs by Team"; "bar:Total Wickets by Team" ].
Proof.
  destruct (main_completes read_squad read_squad parse_decimal parse_decimal
              draw_hist draw_team_bar source_disk
              (Text "Player,Role,Team,Matches,Runs,Bat_SR,Wickets,Econ") squad
              [ "hist:Runs Distribution"; "hist:Wickets Distribution";
                "bar:Total Runs by Team"; "bar:Total Wickets by Team" ])
    as (tr & tw & s & fs' & _ & E & _ & P & _).
  - reflexivity.
  - reflexivity.
  - discriminate.
  - exact source_disk_writable.
  - repeat constructor.
  - exists tr, tw, s, fs'. split; [exact E | exact P].
Defined.

Lemma main_fails_after_report_witness :
  exists e top_runs top_wickets summary fs',
    main read_squad read_squad parse_decimal parse_decimal draw_hist draw_team_bar
      (<["charts" := Text "notes"]> source_disk) = (Raise e, fs') /\
    fs' !! "ipl_analysis_report.xlsx" =
      Some (Xlsx (report_sheets top_runs top_wickets summary)).
Proof.
  destruct (main_fails_after_report read_squad read_squad parse_decimal
              parse_decimal draw_hist draw_team_bar
              (<["charts" := Text "notes"]> source_disk)
              (Text "Player,Role,Team,Matches,Runs,Bat_SR,Wickets,Econ") squad)
    as (e & tr & tw & s & fs' & _ & E & R & _).
  - reflexivity.
  - reflexivity.
  - discriminate.
  - intros [[[W|W] _] _]; discriminate W.
  - exists e, tr, tw, s, fs'. split; [exact E | exact R].
Defined.

(** ** The Analyzer on raw data, and its report *)

Lemma numeric_dtype_text (col : Column) (df : DataFrame) (r : Row) :
  r ∈ df -> is_str (get col r) = true -> numeric_dtype (column col df) = false.
Proof.
  intros Hr Hs. unfold numeric_dtype, column.
  apply not_true_iff_false. intros F. rewrite forallb_forall in F.
  specialize (F (get col r)). rewrite Hs in F. discriminate F.
  apply in_map, list_elem_of_In, Hr.
Qed.



Section AnalyzerReport.

Variable float_of_string : string -> option Q.

Local Abbreviation analyze := (analyze_ipl float_of_string).
Local Abbreviation ranking := (fun col => sort_desc (fun r => sort_key (get col r))).

(** X19.  The Analyzer needs cleaned data: on a Dataset that still holds
    a text in the runs column or in the wickets column it raises a
    TypeError ([nlargest] refuses the column) and returns nothing. *)
Theorem analyze_ipl_refuses_text (df : DataFrame) (r : Row) :
  r ∈ df ->
  is_str (r_runs r) = true \/ is_str (r_wickets r) = true ->
  analyze df = Raise TypeError.
Proof.
  intros Hr H. unfold analyze_ipl, nlargest.
  destruct (numeric_dtype (column Runs df)) eqn:ER; [|reflexivity].
  destruct H as [H|H].
  - rewrite (numeric_dtype_text Runs df r Hr H) in ER. discriminate.
  - now rewrite (numeric_dtype_text Wickets df r Hr H).
Qed.


End AnalyzerReport.

Lemma analyze_ipl_refuses_text_witness :
  analyze_ipl parse_decimal
    [ mkRow (Str "E") (Str "Batter") (Str "T3") (Num 4) (Str "forty") (Num 90) (Num 0) (Num 0) ]
  = Raise TypeError.
Proof.
  apply (analyze_ipl_refuses_text parse_decimal _
           (mkRow (Str "E") (Str "Batter") (Str "T3") (Num 4) (Str "forty") (Num 90)
                  (Num 0) (Num 0))).
  - now left.
  - now left.
Defined.


(** ** The Chart Renderer stops at the first failure *)



Section ChartRendererStops.

Variable hist : string -> list Cell -> option Image.
Variable team_bar : string -> Column -> DataFrame -> option Image.

Local Abbreviation charts := (generate_charts hist team_bar).



End ChartRendererStops.

